(** * Claim-denial dashboard: a shallow embedding of [app.py]

    The request handler [index] of [app.py] reads an uploaded CSV, finds its
    header row ([load_csv]), renames the columns ([normalize_columns]), cleans
    three columns, and builds the summary tables and the root-cause counts.

    The handler is written against pandas.  The [Pandas] module below embeds
    the handful of pandas operations the handler calls, at the level of cells:
    a cell is a missing value, a text, a number or a boolean.  Numbers are
    exact rationals ([Qc]); IEEE rounding of [float64] is not modelled.
    Texts are byte strings: letters outside ASCII have no case. *)

From Stdlib Require Import ZArith QArith Qcanon Ascii String List Lia.
From stdpp Require Import base decidable option list strings gmap sorting numbers pretty.

Open Scope string_scope.

(** ** Text: the [str] methods and the literal regular expressions used *)

Module Text.

Definition code (c : ascii) : N := N_of_ascii c.

Definition is_upper (c : ascii) : bool := ((65 <=? code c) && (code c <=? 90))%N.
Definition is_lower (c : ascii) : bool := ((97 <=? code c) && (code c <=? 122))%N.
Definition is_digit (c : ascii) : bool := ((48 <=? code c) && (code c <=? 57))%N.

(** [str.isspace] on ASCII: TAB, LF, VT, FF, CR, FS, GS, RS, US and space. *)
Definition is_space (c : ascii) : bool :=
  (((9 <=? code c) && (code c <=? 13)) || ((28 <=? code c) && (code c <=? 32)))%N.

Definition lower_char (c : ascii) : ascii :=
  if is_upper c then ascii_of_N (code c + 32) else c.

(** [s.lower()] *)
Fixpoint lower (s : string) : string :=
  match s with
  | EmptyString => EmptyString
  | String c s' => String (lower_char c) (lower s')
  end.

Fixpoint lstrip (s : string) : string :=
  match s with
  | EmptyString => EmptyString
  | String c s' => if is_space c then lstrip s' else s
  end.

Fixpoint rstrip (s : string) : string :=
  match s with
  | EmptyString => EmptyString
  | String c s' =>
      match rstrip s' with
      | EmptyString => if is_space c then EmptyString else String c EmptyString
      | r => String c r
      end
  end.

(** [s.strip()] *)
Definition strip (s : string) : string := rstrip (lstrip s).

(** [re.sub("[...]", "", s)] for a character class: the characters of the
    class are dropped, the others kept. *)
Fixpoint drop_chars (class : ascii -> bool) (s : string) : string :=
  match s with
  | EmptyString => EmptyString
  | String c s' =>
      if class c then drop_chars class s' else String c (drop_chars class s')
  end.

Fixpoint starts_with (p s : string) : bool :=
  match p, s with
  | EmptyString, _ => true
  | String _ _, EmptyString => false
  | String a p', String b s' => bool_decide (a = b) && starts_with p' s'
  end.

(** [s.endswith(suffix)] *)
Definition endswith (s suffix : string) : bool :=
  starts_with (String.rev suffix) (String.rev s).

(** [needle in hay] *)
Fixpoint contains (needle hay : string) : bool :=
  starts_with needle hay ||
  match hay with
  | EmptyString => false
  | String _ hay' => contains needle hay'
  end.

(** [s.split(sep)] for a one-character separator. *)
Fixpoint split (sep : ascii) (s : string) : list string :=
  match s with
  | EmptyString => [EmptyString]
  | String c s' =>
      if bool_decide (c = sep) then EmptyString :: split sep s'
      else match split sep s' with
           | [] => [String c EmptyString]
           | w :: ws => String c w :: ws
           end
  end.

(** The characters that mean something to [re] outside a class, [|] apart. *)
Definition is_meta (c : ascii) : bool :=
  bool_decide (c ∈ list_ascii_of_string ".^$*+?{}[]\()").

Fixpoint no_meta (s : string) : bool :=
  match s with
  | EmptyString => true
  | String c s' => negb (is_meta c) && no_meta s'
  end.

(** [re.search(pat, s, flags)] for a pattern that is an alternation of
    literals: some alternative occurs in [s].  With [case = false] the flag
    is [re.IGNORECASE]. *)
Definition re_search (pat : string) (case : bool) (s : string) : bool :=
  existsb (fun alt => if case then contains alt s
                      else contains (lower alt) (lower s))
          (split "|" pat).

End Text.

(** ** The column normalizer *)

Definition col_map : gmap string string :=
  list_to_map
    [ ("cptcode", "CPT_Code");
      ("procedurecode", "CPT_Code");
      ("insurancecompany", "Insurance_Company");
      ("payername", "Insurance_Company");
      ("insurancename", "Insurance_Company");
      ("physicianname", "Physician_Name");
      ("doctorfullname", "Physician_Name");
      ("doctorname", "Physician_Name");
      ("paymentamount", "Payment_Amount");
      ("paidamount", "Payment_Amount");
      ("balance", "Balance");
      ("balanceamt", "Balance");
      ("outstandingbalance", "Balance");
      ("denialreason", "Denial_Reason");
      ("reasonfordenial", "Denial_Reason") ].

(** The class [[^a-z0-9]]. *)
Definition not_lower_alnum (c : ascii) : bool :=
  negb (Text.is_lower c || Text.is_digit c).

(** [.str.strip().str.lower().str.replace(r"[^a-z0-9]", "", regex=True)] on one
    header. *)
Definition clean_header (raw : string) : string :=
  Text.drop_chars not_lower_alnum (Text.lower (Text.strip raw)).

(** [{col: col_map[col] for col in df.columns if col in col_map}] *)
Definition rename_dict (cols : list string) : gmap string string :=
  list_to_map (omap (fun col => (fun v => (col, v)) <$> col_map !! col) cols).

(** [df.rename(columns=d)] on the list of column names. *)
Definition rename (d : gmap string string) (cols : list string) : list string :=
  (fun col => default col (d !! col)) <$> cols.

Definition normalize_header_row (raw : list string) : list string :=
  let cols := clean_header <$> raw in
  rename (rename_dict cols) cols.

(** What [normalize_columns] does to one header, on its own. *)
Definition normalize_name (raw : string) : string :=
  let key := clean_header raw in default key (col_map !! key).


(** ** Pandas: the operations [app.py] calls *)

Module Pandas.

(** A value held by a frame: missing ([NaN], [None]), a [str], a number
    ([int64] or [float64]) or a [bool]. *)
Inductive cell := NaN | Str (s : string) | Num (q : Qc) | Bool (b : bool).

#[export] Instance cell_eq_dec : EqDecision cell.
Proof. solve_decision. Defined.

Inductive exn :=
| AttributeError | KeyError | TypeError | ValueError
| ParserError | EmptyDataError.

#[export] Instance exn_eq_dec : EqDecision exn.
Proof. solve_decision. Defined.

(** A computation that returns or raises. *)
Inductive result (A : Type) := Ok (a : A) | Raise (e : exn).
Arguments Ok {A} a.
Arguments Raise {A} e.

#[export] Instance result_eq_dec `{EqDecision A} : EqDecision (result A).
Proof. solve_decision. Defined.

Definition bind {A B} (m : result A) (k : A -> result B) : result B :=
  match m with
  | Ok a => k a
  | Raise e => Raise e
  end.

Fixpoint mapM {A B} (f : A -> result B) (l : list A) : result (list B) :=
  match l with
  | [] => Ok []
  | x :: l' =>
      bind (f x) (fun y => bind (mapM f l') (fun ys => Ok (y :: ys)))
  end.

(** *** Numbers *)

Definition digit_val (c : ascii) : Z := Z.of_N (Text.code c) - 48.

(** Reads the longest run of digits at the head of [s]: the value
    accumulated, how many digits were read, and what follows. *)
Fixpoint read_digits (acc : Z) (n : nat) (s : string) : Z * nat * string :=
  match s with
  | String c s' =>
      if Text.is_digit c then read_digits (10 * acc + digit_val c) (S n) s'
      else (acc, n, s)
  | EmptyString => (acc, n, s)
  end.

Definition read_sign (s : string) : bool * string :=
  match s with
  | String "-" s' => (true, s')
  | String "+" s' => (false, s')
  | _ => (false, s)
  end.

Definition pow10 (e : Z) : Qc :=
  if (0 <=? e)%Z then Qc_of_Z (10 ^ e) else (/ Qc_of_Z (10 ^ (- e)))%Qc.

(** The decimal literals the numeric parser takes: blanks around, a sign,
    digits with an optional point, an optional exponent.  ([inf] and [nan]
    spellings, which stand for values that are not rationals, are not
    taken.) *)
Definition parse_number (s : string) : option Qc :=
  let '(neg, s1) := read_sign (Text.strip s) in
  let '(ip, ni, s2) := read_digits 0 0 s1 in
  let '(m, nf, s3) :=
    match s2 with
    | String "." t => read_digits ip 0 t
    | _ => (ip, 0%nat, s2)
    end in
  let '(ex, ok, s4) :=
    match s3 with
    | String c t =>
        if bool_decide (c = "e"%char \/ c = "E"%char) then
          let '(eneg, t1) := read_sign t in
          let '(ev, ne, t2) := read_digits 0 0 t1 in
          ((if eneg then - ev else ev)%Z, negb (ne =? 0)%nat, t2)
        else (0%Z, true, s3)
    | EmptyString => (0%Z, true, s3)
    end in
  if negb (ni + nf =? 0)%nat && ok && bool_decide (s4 = EmptyString)
  then Some (Qc_of_Z (if neg then - m else m) * pow10 (ex - Z.of_nat nf))%Qc
  else None.

(** Rounding to the nearest integer, ties to the even one ([numpy.rint]). *)
Definition rint (q : Qc) : Z :=
  let n := Qnum q in
  let d := Z.pos (Qden q) in
  let f := (n / d)%Z in
  let r2 := (2 * (n mod d))%Z in
  if (r2 <? d)%Z then f
  else if (d <? r2)%Z then (f + 1)%Z
  else if Z.even f then f else (f + 1)%Z.

(** [Series.round(decimals)] on one value. *)
Definition round (decimals : nat) (q : Qc) : Qc :=
  let scale := Qc_of_Z (10 ^ Z.of_nat decimals) in
  (Qc_of_Z (rint (q * scale)) / scale)%Qc.

(** *** Series: a column of cells *)

Definition isna (c : cell) : bool :=
  match c with NaN => true | _ => false end.

(** [s.fillna(v)] *)
Definition fillna (v : cell) (s : list cell) : list cell :=
  (fun c => if isna c then v else c) <$> s.

(** [s.dropna()] *)
Definition dropna (s : list cell) : list cell :=
  filter (fun c => isna c = false) s.

(** [s.replace(r"[...]", "", regex=True)] for a character class: texts lose
    the characters of the class, other cells are left alone. *)
Definition replace_class (class : ascii -> bool) (s : list cell) : list cell :=
  (fun c => match c with
            | Str t => Str (Text.drop_chars class t)
            | _ => c
            end) <$> s.

Definition is_bool (c : cell) : bool :=
  match c with Bool _ => true | _ => false end.

(** [pd.to_numeric(s, errors="coerce")]: a text is parsed, and is missing
    if it is not a number; a column of booleans is returned as it is, and
    in any other column a boolean counts as 0 or 1. *)
Definition to_numeric_coerce (s : list cell) : list cell :=
  let all_bool := forallb is_bool s in
  (fun c => match c with
            | Str t => match parse_number t with
                       | Some q => Num q
                       | None => NaN
                       end
            | Bool b => if all_bool then c
                        else Num (Qc_of_Z (if b then 1 else 0))
            | _ => c
            end) <$> s.

(** [s.apply(f)]; [f] may raise. *)
Definition apply {B} (f : cell -> result B) (s : list cell) : result (list B) :=
  mapM f s.

(** The text [str(x)] of a number: an integer prints its digits, another
    number its digits, a point and up to 17 digits of the fraction. *)
Fixpoint frac_digits (fuel : nat) (r d : Z) : string :=
  match fuel with
  | O => EmptyString
  | S fuel' =>
      if (r =? 0)%Z then EmptyString
      else String (ascii_of_N (Z.to_N (10 * r / d) + 48))
                  (frac_digits fuel' (10 * r mod d) d)
  end.

Definition number_text (q : Qc) : string :=
  let n := Qnum q in
  let d := Z.pos (Qden q) in
  let a := Z.abs n in
  let sign := if (n <? 0)%Z then "-" else "" in
  if (d =? 1)%Z then pretty n
  else sign +:+ pretty (a / d)%Z +:+ "." +:+ frac_digits 17 (a mod d) d.

(** [s.astype(str)] on one cell. *)
Definition astype_str (c : cell) : string :=
  match c with
  | NaN => "nan"
  | Str t => t
  | Num q => number_text q
  | Bool true => "True"
  | Bool false => "False"
  end.

(** [s.str.contains(pat, case=...).sum()] on texts. *)
Definition str_contains_sum (pat : string) (case : bool) (s : list string) : nat :=
  length (filter (fun t => Text.re_search pat case t = true) s).


(** *** Frames *)

(** A frame: the column labels and the rows, each row a list of cells in
    the order of the labels. *)
Record DataFrame := { columns : list string; rows : list (list cell) }.

#[export] Instance DataFrame_eq_dec : EqDecision DataFrame.
Proof. solve_decision. Defined.

Definition cell_at (i : nat) (r : list cell) : cell := default NaN (r !! i).

Definition label_count (name : string) (cols : list string) : nat :=
  length (filter (fun c => c = name) cols).

Definition label_index (name : string) (cols : list string) : option nat :=
  fst <$> list_find (fun c => c = name) cols.

(** [df[name]] where a column is expected.  A label that occurs once
    selects that column; a label that occurs more than once selects a
    frame, and [e2d] is what the caller's next call raises on a frame. *)
Definition column (df : DataFrame) (name : string) (e2d : exn) : result (list cell) :=
  match label_index name (columns df) with
  | None => Raise KeyError
  | Some i =>
      if (label_count name (columns df) =? 1)%nat
      then Ok (cell_at i <$> rows df)
      else Raise e2d
  end.

(** [df[name] = s]: the column is replaced, or appended under a new label. *)
Definition setitem (df : DataFrame) (name : string) (s : list cell) : DataFrame :=
  let w := length (columns df) in
  match label_index name (columns df) with
  | Some i =>
      {| columns := columns df;
         rows := zip_with (fun r v => <[i := v]> (resize w NaN r)) (rows df) s |}
  | None =>
      {| columns := (columns df ++ [name])%list;
         rows := zip_with (fun r v => (resize w NaN r ++ [v])%list) (rows df) s |}
  end.

(** The entries of [rs] at which the mask holds [True]. *)
Fixpoint select_rows {A} (rs : list A) (mask : list cell) : list A :=
  match rs, mask with
  | r :: rs', m :: mask' =>
      if bool_decide (m = Bool true) then r :: select_rows rs' mask'
      else select_rows rs' mask'
  | _, _ => []
  end.

(** [df[mask]] for the mask a column of the frame.  A mask with values is
    a boolean indexer and selects rows.  An empty mask has dtype [object],
    is not recognised as boolean, and is read as an empty list of labels:
    the selection keeps the rows and no column. *)
Definition getitem_mask (df : DataFrame) (mask : list cell) : DataFrame :=
  match mask with
  | [] => {| columns := []; rows := (fun _ => []) <$> rows df |}
  | _ => {| columns := columns df; rows := select_rows (rows df) mask |}
  end.

(** [df.empty] *)
Definition empty (df : DataFrame) : bool :=
  bool_decide (columns df = []) || bool_decide (rows df = []).

(** *** Grouping, joining, sorting *)

Definition cell_rank (c : cell) : nat :=
  match c with NaN => 0 | Bool _ => 1 | Num _ => 2 | Str _ => 3 end.

(** The order in which group keys are listed: numbers by value, texts by
    code point; the order between kinds is fixed here by [cell_rank]. *)
Definition cell_leb (a b : cell) : bool :=
  match a, b with
  | Num x, Num y => bool_decide (x <= y)%Qc
  | Str s, Str t => String.leb s t
  | Bool x, Bool y => implb x y
  | _, _ => (cell_rank a <=? cell_rank b)%nat
  end.

Definition count_eq (k : cell) (keys : list cell) : nat :=
  length (filter (fun c => c = k) keys).

(** [groupby(...).size()] on the key column: null keys are dropped, the
    keys are listed once each, in order, with the number of their rows. *)
Definition size_by_key (keys : list cell) : list (cell * nat) :=
  let present := dropna keys in
  (fun k => (k, count_eq k present))
    <$> merge_sort (fun a b => Is_true (cell_leb a b)) (remove_dups present).

(** [df.groupby(name).size().reset_index(name=...)] *)
Definition groupby_size (df : DataFrame) (name : string) : result (list (cell * nat)) :=
  bind (column df name ValueError) (fun keys => Ok (size_by_key keys)).

(** [pd.merge(left, right, on=key, how="left")] for two-column tables keyed
    by their first column: every left row, once per matching right row, or
    once with a missing value when there is none. *)
Definition merge_left (left right : list (cell * nat)) : list (cell * nat * option nat) :=
  flat_map
    (fun '(k, t) =>
       match filter (fun kd => kd.1 = k) right with
       | [] => [(k, t, None)]
       | ms => (fun kd => (k, t, Some kd.2)) <$> ms
       end)
    left.

(** [t.sort_values(by=..., ascending=False)] on a count.  Pandas leaves the
    order of rows with equal counts open; the merge sort fixes one. *)
Definition sort_desc {A} (count : A -> nat) (t : list A) : list A :=
  merge_sort (fun a b => Is_true (count b <=? count a)%nat) t.

(** [t.head(n)] *)
Definition head {A} (n : nat) (t : list A) : list A := take n t.

(** *** Reading a CSV *)

(** The spellings [read_csv] reads as a missing value. *)
Definition na_values : list string :=
  [ ""; "#N/A"; "#N/A N/A"; "#NA"; "-1.#IND"; "-1.#QNAN"; "-NaN"; "-nan";
    "1.#IND"; "1.#QNAN"; "<NA>"; "N/A"; "NA"; "NULL"; "NaN"; "None";
    "n/a"; "nan"; "null" ].

Definition is_na_text (f : string) : bool := bool_decide (f ∈ na_values).

Definition parse_bool (f : string) : option bool :=
  if bool_decide (f ∈ ["True"; "TRUE"; "true"]) then Some true
  else if bool_decide (f ∈ ["False"; "FALSE"; "false"]) then Some false
  else None.

(** The dtype of a column is inferred from all its fields: numbers if every
    field that is not missing is a number, booleans if every such field is
    one, texts otherwise. *)
Definition infer_column (fields : list string) : list cell :=
  let vals := filter (fun f => is_na_text f = false) fields in
  if forallb (fun f => bool_decide (is_Some (parse_number f))) vals then
    (fun f => if is_na_text f then NaN
              else from_option Num NaN (parse_number f)) <$> fields
  else if forallb (fun f => bool_decide (is_Some (parse_bool f))) vals then
    (fun f => if is_na_text f then NaN
              else from_option Bool NaN (parse_bool f)) <$> fields
  else (fun f => if is_na_text f then NaN else Str f) <$> fields.

(** Column labels from the header row: an empty label is named after its
    position, a repeated one gets its repeat count as a suffix. *)
Fixpoint dedup_names (seen : gmap string nat) (names : list string) : list string :=
  match names with
  | [] => []
  | n :: ns =>
      match seen !! n with
      | None => n :: dedup_names (<[n := 1%nat]> seen) ns
      | Some k => (n +:+ "." +:+ pretty k) :: dedup_names (<[n := S k]> seen) ns
      end
  end.

Definition header_names (hdr : list string) : list string :=
  dedup_names ∅
    (imap (fun i n => if bool_decide (n = "") then "Unnamed: " +:+ pretty i else n) hdr).

(** The typed rows of a block of records of [w] fields each. *)
Definition typed_rows (w : nat) (data : list (list string)) : list (list cell) :=
  let cols := (fun j => infer_column ((fun r => default "" (r !! j)) <$> data))
                <$> seq 0 w in
  (fun i => cell_at i <$> cols) <$> seq 0 (length data).

(** [pd.read_csv(file, header=h, skip_blank_lines=True)].  The file is
    given as the tokenizer splits it: one list of fields per line, the
    empty list for a blank line.  Blank lines are skipped; line [h] of the
    rest is the header and lines before it are dropped.  The first record
    after the header sets the expected width together with the header; a
    later record with more fields is an error, a shorter one is padded.
    When the records are wider than the header the extra leading fields
    become the index. *)
Definition read_csv (h : nat) (file : list (list string)) : result DataFrame :=
  let lines := filter (fun l => l <> []) file in
  match drop h lines with
  | [] => if bool_decide (lines = []) then Raise EmptyDataError else Raise ParserError
  | hdr :: data =>
      let w := length hdr in
      let ex := match data with [] => w | r :: _ => w `max` length r end in
      if forallb (fun r => length r <=? ex)%nat data then
        Ok {| columns := header_names hdr;
              rows := typed_rows w ((fun r => drop (ex - w) (resize ex "" r)) <$> data) |}
      else Raise ParserError
  end.

End Pandas.
Import Pandas.


Notation "'do' x <- m ; k" := (bind m (fun x => k))
  (at level 10, x name, m at level 100, k at level 200).

(** ** [normalize_columns] and [load_csv] *)

Definition normalize_columns (df : DataFrame) : DataFrame :=
  {| columns := normalize_header_row (columns df); rows := rows df |}.

Definition required_cols : gset string :=
  {[ "CPT_Code"; "Insurance_Company"; "Physician_Name";
     "Payment_Amount"; "Balance"; "Denial_Reason" ]}.

(** [required_cols.issubset(df.columns)] *)
Definition has_required (df : DataFrame) : bool :=
  bool_decide (required_cols ⊆ list_to_set (columns df)).

(** The loop of [load_csv] over the header offsets still to try.  Returns
    the offsets at which the file was parsed, in order, and the frame
    accepted, if any.  An offset at which [read_csv] raises is passed over
    ([except Exception: continue]). *)
Fixpoint load_csv_from (hs : list nat) (file : list (list string))
  : list nat * option DataFrame :=
  match hs with
  | [] => ([], None)
  | h :: hs' =>
      match (do df <- read_csv h file; Ok (normalize_columns df)) with
      | Ok df =>
          if has_required df then ([h], Some df)
          else let '(tried, r) := load_csv_from hs' file in (h :: tried, r)
      | Raise _ =>
          let '(tried, r) := load_csv_from hs' file in (h :: tried, r)
      end
  end.

Definition load_csv (file : list (list string)) : list nat * option DataFrame :=
  load_csv_from [0; 1; 2]%nat file.

(** ** The request handler *)

(** The class [[\$,]]. *)
Definition currency_class (c : ascii) : bool :=
  bool_decide (c = "$"%char \/ c = ","%char).

(** [pd.to_numeric(s.replace(r"[\$,]", "", regex=True), errors="coerce").fillna(0)] *)
Definition clean_currency (s : list cell) : list cell :=
  fillna (Num (Qc_of_Z 0)) (to_numeric_coerce (replace_class currency_class s)).

(** [lambda x: x.strip() != ""]: only a [str] has [strip]. *)
Definition strip_nonempty (x : cell) : result cell :=
  match x with
  | Str t => Ok (Bool (negb (bool_decide (Text.strip t = ""))))
  | _ => Raise AttributeError
  end.

(** The data-cleaning lines of [index]. *)
Definition clean (df : DataFrame) : result DataFrame :=
  do pay <- column df "Payment_Amount" TypeError;
  let df1 := setitem df "Payment_Amount" (clean_currency pay) in
  do bal <- column df1 "Balance" TypeError;
  let df2 := setitem df1 "Balance" (clean_currency bal) in
  do reason <- column df2 "Denial_Reason" AttributeError;
  do denied <- apply strip_nonempty (fillna (Str "") reason);
  Ok (setitem df2 "Is_Denied" denied).

(** [df[df["Is_Denied"]]] *)
Definition denied_rows (df : DataFrame) : result DataFrame :=
  do mask <- column df "Is_Denied" KeyError;
  Ok (getitem_mask df mask).

Record cpt_row := {
  CPT_Code : cell;
  Total_Claims : nat;
  Denied_Claims : nat;
  Denial_Rate : Qc
}.

#[export] Instance cpt_row_eq_dec : EqDecision cpt_row.
Proof. solve_decision. Defined.

Definition Qc_of_nat (n : nat) : Qc := Qc_of_Z (Z.of_nat n).

(** One row of the merged table: the missing count is filled with 0, then
    the rate column is computed. *)
Definition cpt_row_of (r : cell * nat * option nat) : cpt_row :=
  let '(k, t, d) := r in
  let d0 := default 0%nat d in
  {| CPT_Code := k; Total_Claims := t; Denied_Claims := d0;
     Denial_Rate := round 2 (Qc_of_nat d0 / Qc_of_nat t * Qc_of_Z 100)%Qc |}.

(** The root-cause dictionary: category and the pattern of its
    [str.contains] call, in the order of the literal. *)
Definition root_cause_patterns : list (string * string) :=
  [ ("Modifier Issues", "modifier");
    ("LCD/NCD Mismatch", "LCD|NCD|medical necessity");
    ("Bundling Edits (NCCI)", "bundl");
    ("Lack of Documentation", "documentation|record|16");
    ("Prior Authorization Problems", "prior authorization|auth");
    ("Credentialing or Enrollment Issues", "credentialing|enrollment|provider eligibility");
    ("Charge Exceeds Fee Schedule", "45|charge exceeds fee schedule");
    ("Non-covered Service", "96|non-covered service") ].

Definition root_causes (denial_reasons : list string) : list (string * nat) :=
  (fun np => (np.1, str_contains_sum np.2 false denial_reasons)) <$> root_cause_patterns.

Definition reasons : gmap string string :=
  list_to_map
    [ ("Modifier Issues", "Missing/incorrect modifiers can lead to denials.");
      ("LCD/NCD Mismatch", "Claim doesn’t meet Medicare LCD/NCD criteria.");
      ("Bundling Edits (NCCI)", "Service bundled incorrectly under NCCI edits.");
      ("Lack of Documentation", "Insufficient documentation to prove necessity.");
      ("Prior Authorization Problems", "No valid prior authorization at time of service.");
      ("Credentialing or Enrollment Issues", "Provider not enrolled/credentialed properly.");
      ("Charge Exceeds Fee Schedule", "Claimed charge exceeded the payer’s fee schedule.");
      ("Non-covered Service", "Service not covered under patient’s insurance plan.") ].

Definition recommendations : list (string * string) :=
  [ ("Modifier Issues", "✔ Train staff on modifier rules, run pre-checks before submission.");
    ("LCD/NCD Mismatch", "✔ Check coverage policies, attach additional docs when appealing.");
    ("Bundling Edits (NCCI)", "✔ Educate coders on bundling, only override with documentation.");
    ("Lack of Documentation", "✔ Use templates, audit charts before billing.");
    ("Prior Authorization Problems", "✔ Track prior auths, verify before service.");
    ("Credentialing or Enrollment Issues", "✔ Audit provider credentialing regularly.");
    ("Charge Exceeds Fee Schedule", "✔ Review fee schedules; negotiate rates with payers.");
    ("Non-covered Service", "✔ Inform patients before service, use ABNs when required.") ].

(** What [index] computes from the cleaned frame: the tables it keeps in
    variables and the three charts ([None] when not drawn, else the rows
    plotted). *)
Record analysis := {
  cpt_analysis : list cpt_row;
  payer_denials : list (cell * nat);
  provider_denials : list (cell * nat);
  root_causes_df : list (string * nat * option string);
  cpt_chart : option (list cpt_row);
  payer_chart : option (list (cell * nat));
  provider_chart : option (list (cell * nat))
}.

#[export] Instance analysis_eq_dec : EqDecision analysis.
Proof. solve_decision. Defined.

(** The summary tables, the root causes and the charts, from the cleaned
    frame. *)
Definition summarise (df : DataFrame) : result analysis :=
  do den <- denied_rows df;
  do denied_cpt_counts <- groupby_size den "CPT_Code";
  do total_cpt_counts <- groupby_size df "CPT_Code";
  let cpt := cpt_row_of <$> merge_left total_cpt_counts denied_cpt_counts in
  do den <- denied_rows df;
  do payer_counts <- groupby_size den "Insurance_Company";
  let payer := sort_desc snd payer_counts in
  do den <- denied_rows df;
  do provider_counts <- groupby_size den "Physician_Name";
  let provider := sort_desc snd provider_counts in
  do den <- denied_rows df;
  do reason <- column den "Denial_Reason" AttributeError;
  let denial_reasons := astype_str <$> dropna reason in
  let causes := (fun nc => (nc.1, nc.2, reasons !! nc.1)) <$> root_causes denial_reasons in
  Ok {| cpt_analysis := cpt;
        payer_denials := payer;
        provider_denials := provider;
        root_causes_df := causes;
        cpt_chart := if bool_decide (cpt = []) then None
                     else Some (head 10 (sort_desc Denied_Claims cpt));
        payer_chart := if bool_decide (payer = []) then None else Some (head 10 payer);
        provider_chart := if bool_decide (provider = []) then None
                          else Some (head 10 provider) |}.

(** Cleaning, then the summaries: what [index] does with an accepted frame. *)
Definition analyse (df : DataFrame) : result analysis :=
  do cleaned <- clean df; summarise cleaned.

(** The template context of the rendered page: the five tables as shown
    (sorted where the code sorts for display) and the charts. *)
Record page := {
  cpt_analysis_html : list cpt_row;
  payer_denials_html : list (cell * nat);
  provider_denials_html : list (cell * nat);
  root_causes_html : list (string * nat * option string);
  recommendations_html : list (string * string);
  page_cpt_chart : option (list cpt_row);
  page_payer_chart : option (list (cell * nat));
  page_provider_chart : option (list (cell * nat))
}.

Definition render (a : analysis) : page :=
  {| cpt_analysis_html := sort_desc Denied_Claims (cpt_analysis a);
     payer_denials_html := payer_denials a;
     provider_denials_html := provider_denials a;
     root_causes_html := sort_desc (fun r => r.1.2) (root_causes_df a);
     recommendations_html := recommendations;
     page_cpt_chart := cpt_chart a;
     page_payer_chart := payer_chart a;
     page_provider_chart := provider_chart a |}.

Inductive method := GET | POST.

(** The uploaded file part: its name and its stream, as the CSV tokenizer
    will split it. *)
Record upload := { filename : string; stream : list (list string) }.

(** [request]: the method and the part named [file], if the form has one. *)
Record request := { meth : method; file_part : option upload }.

(** What the handler answers: a message with status 400, the rendered
    template (with the tables, or blank), or an exception that escapes the
    handler (the server answers 500). *)
Inductive response :=
| Status400 (msg : string)
| Rendered (p : option page)
| Unhandled (e : exn).

Definition is_error (r : response) : bool :=
  match r with Rendered _ => false | _ => true end.

(** [index]: the offsets at which the upload was parsed, and the answer. *)
Definition index (req : request) : list nat * response :=
  match meth req with
  | POST =>
      match file_part req with
      | None => ([], Status400 "❌ No file part in request")
      | Some file =>
          if bool_decide (filename file = "") then ([], Status400 "❌ No file selected")
          else if negb (bool_decide (filename file = ""))
                  && Text.endswith (filename file) ".csv" then
            let '(tried, r) := load_csv (stream file) in
            match r with
            | None =>
                (tried, Status400 "❌ Could not detect correct header format or missing required columns.")
            | Some df =>
                (tried, match analyse df with
                        | Ok a => Rendered (Some (render a))
                        | Raise e => Unhandled e
                        end)
            end
          else ([], Rendered None)
      end
  | GET => ([], Rendered None)
  end.


(** ** [generate_new_claims.py] *)

Fixpoint keep_where {A} (keep : list bool) (xs : list A) : list A :=
  match keep, xs with
  | k :: keep', x :: xs' =>
      if k then x :: keep_where keep' xs' else keep_where keep' xs'
  | _, _ => []
  end.

(** [df.drop(columns=[label])]: every column under the label goes, with
    its cells. *)
Definition drop_columns (label : string) (df : DataFrame) : DataFrame :=
  let keep := (fun c => negb (bool_decide (c = label))) <$> columns df in
  {| columns := keep_where keep (columns df);
     rows := (fun r => keep_where keep (resize (length (columns df)) NaN r)) <$> rows df |}.

(** [df.sample(n=n, replace=True, random_state=...)].  The generator is a
    parameter: [draw size n] is the list of the [n] row positions it draws
    for a frame of [size] rows.  Drawing from a frame without rows raises. *)
Definition sample (draw : nat -> nat -> list nat) (n : nat) (df : DataFrame)
  : result DataFrame :=
  if bool_decide (rows df = []) && negb (n =? 0)%nat then Raise ValueError
  else Ok {| columns := columns df;
             rows := (fun i => default [] (rows df !! i)) <$> draw (length (rows df)) n |}.

(** The script: read the data after its two leading lines ([skiprows=2]),
    drop the column [#] if there is one, draw 3000 rows with replacement.
    Returns the frame the script writes out. *)
Definition generate_new_claims (draw : nat -> nat -> list nat) (file : list (list string))
  : result DataFrame :=
  do df <- read_csv 0 (drop 2 file);
  let df := if bool_decide ("#" ∈ columns df) then drop_columns "#" df else df in
  sample draw 3000 df.

(** What a generator owes: as many positions as asked, all of them rows. *)
Definition valid_draw (draw : nat -> nat -> list nat) : Prop :=
  forall size n, (0 < size)%nat ->
    length (draw size n) = n /\ Forall (fun i => (i < size)%nat) (draw size n).

(** ** Vocabulary of the specification *)

Definition is_alnum (c : ascii) : bool :=
  Text.is_upper c || Text.is_lower c || Text.is_digit c.

(** Raw header names that are variants of one another: they differ in the
    case of letters, in characters that are neither letters nor digits
    (blanks, punctuation), or are both keys of the synonym table for the
    same canonical name. *)
Inductive synonym_variant : string -> string -> Prop :=
| sv_refl s : synonym_variant s s
| sv_sym s t : synonym_variant s t -> synonym_variant t s
| sv_trans s t u : synonym_variant s t -> synonym_variant t u -> synonym_variant s u
| sv_case s t : Text.lower s = Text.lower t -> synonym_variant s t
| sv_punct s1 c s2 :
    is_alnum c = false -> synonym_variant (s1 +:+ String c s2) (s1 +:+ s2)
| sv_table s t canonical :
    col_map !! clean_header s = Some canonical ->
    col_map !! clean_header t = Some canonical ->
    synonym_variant s t.

(** The cell of row [r] under the label [name]. *)
Definition cell_of (df : DataFrame) (name : string) (r : list cell) : cell :=
  match label_index name (columns df) with
  | Some i => cell_at i r
  | None => NaN
  end.

(** [Is_Denied]: the denial reason is a text that is not empty once trimmed. *)
Definition is_denied (c : cell) : bool :=
  match c with
  | Str t => negb (bool_decide (Text.strip t = ""))
  | _ => false
  end.

Definition row_denied (df : DataFrame) (r : list cell) : bool :=
  is_denied (cell_of df "Denial_Reason" r).

(** Number of rows whose [name] cell is [key]. *)
Definition total_claims (df : DataFrame) (name : string) (key : cell) : nat :=
  length (filter (fun r => cell_of df name r = key) (rows df)).

(** Number of denied rows whose [name] cell is [key]. *)
Definition denied_claims (df : DataFrame) (name : string) (key : cell) : nat :=
  length (filter (fun r => cell_of df name r = key /\ row_denied df r = true) (rows df)).

(** Number of denied rows, and of denied rows with a [name] cell. *)
Definition denied_total (df : DataFrame) : nat :=
  length (filter (fun r => row_denied df r = true) (rows df)).

Definition denied_keyed (df : DataFrame) (name : string) : nat :=
  length (filter (fun r => cell_of df name r <> NaN /\ row_denied df r = true) (rows df)).

(** The denial reasons of the denied rows, in row order. *)
Definition denied_reasons (df : DataFrame) : list string :=
  omap (fun r => match cell_of df "Denial_Reason" r with
                 | Str t => if is_denied (Str t) then Some t else None
                 | _ => None
                 end) (rows df).

(** The eight categories with their keyword alternatives, as the
    specification lists them. *)
Definition root_cause_keywords : list (string * list string) :=
  [ ("Modifier Issues", ["modifier"]);
    ("LCD/NCD Mismatch", ["LCD"; "NCD"; "medical necessity"]);
    ("Bundling Edits (NCCI)", ["bundl"]);
    ("Lack of Documentation", ["documentation"; "record"; "16"]);
    ("Prior Authorization Problems", ["prior authorization"; "auth"]);
    ("Credentialing or Enrollment Issues", ["credentialing"; "enrollment"; "provider eligibility"]);
    ("Charge Exceeds Fee Schedule", ["45"; "charge exceeds fee schedule"]);
    ("Non-covered Service", ["96"; "non-covered service"]) ].

(** [s] contains one of the keywords, whatever the case of the letters. *)
Definition mentions (keywords : list string) (s : string) : bool :=
  existsb (fun k => Text.contains (Text.lower k) (Text.lower s)) keywords.

(** The count of a category in a table of counts. *)
Definition count_of (category : string) (counts : list (string * nat)) : option nat :=
  snd <$> hd_error (filter (fun nc => nc.1 = category) counts).

(** A currency cell, cleaned: a text loses [$] and [,] and is read as a
    decimal number, 0 if it is not one; a missing value becomes 0; a number
    stays; a boolean stays in a column of booleans and counts as 0 or 1 in
    any other. *)
Definition clean_cell (all_bool : bool) (c : cell) : cell :=
  match c with
  | Str t => match parse_number (Text.drop_chars currency_class t) with
             | Some q => Num q
             | None => Num (Qc_of_Z 0)
             end
  | NaN => Num (Qc_of_Z 0)
  | Bool b => if all_bool then c else Num (Qc_of_Z (if b then 1 else 0))
  | Num _ => c
  end.

(** A currency column, cleaned cell by cell. *)
Definition clean_cells (s : list cell) : list cell :=
  clean_cell (forallb is_bool s) <$> s.

(** The header row [hdr] yields the required columns once normalized. *)
Definition covers (hdr : list string) : Prop :=
  required_cols ⊆ list_to_set (normalize_header_row (header_names hdr)).

#[export] Instance covers_dec hdr : Decision (covers hdr).
Proof. unfold covers. apply _. Defined.

(** [name] labels exactly one column of [df]. *)
Definition one_column (df : DataFrame) (name : string) : Prop :=
  label_count name (columns df) = 1%nat.

#[export] Instance one_column_dec df name : Decision (one_column df name).
Proof. unfold one_column. apply _. Defined.

(** A cell that is missing or a text. *)
Definition text_or_missing (c : cell) : bool :=
  match c with NaN | Str _ => true | _ => false end.


(** The column under [name], and its part in the denied rows. *)
Definition column_of (df : DataFrame) (name : string) : list cell :=
  cell_of df name <$> rows df.

Definition denied_column (df : DataFrame) (name : string) : list cell :=
  cell_of df name <$> filter (fun r => row_denied df r = true) (rows df).

(** The tables and charts of [index], written from the rows of the frame
    as uploaded: what [analyse] returns when it returns. *)
Definition analysis_of (df : DataFrame) : analysis :=
  let cpt := cpt_row_of <$> merge_left (size_by_key (column_of df "CPT_Code"))
                                       (size_by_key (denied_column df "CPT_Code")) in
  let payer := sort_desc snd (size_by_key (denied_column df "Insurance_Company")) in
  let provider := sort_desc snd (size_by_key (denied_column df "Physician_Name")) in
  {| cpt_analysis := cpt;
     payer_denials := payer;
     provider_denials := provider;
     root_causes_df := (fun nc => (nc.1, nc.2, reasons !! nc.1))
                         <$> root_causes (denied_reasons df);
     cpt_chart := if bool_decide (cpt = []) then None
                  else Some (head 10 (sort_desc Denied_Claims cpt));
     payer_chart := if bool_decide (payer = []) then None else Some (head 10 payer);
     provider_chart := if bool_decide (provider = []) then None
                       else Some (head 10 provider) |}.

(** No label the handler selects is ambiguous: the six required labels
    name one column each, [Is_Denied] at most one. *)
Record unambiguous (df : DataFrame) : Prop := {
  un_cpt : one_column df "CPT_Code";
  un_payer : one_column df "Insurance_Company";
  un_provider : one_column df "Physician_Name";
  un_payment : one_column df "Payment_Amount";
  un_balance : one_column df "Balance";
  un_reason : one_column df "Denial_Reason";
  un_flag : (label_count "Is_Denied" (columns df) <= 1)%nat
}.

(** The frames on which [analyse] runs to the end: no label is ambiguous,
    there is a row, and no denial reason is a number or a boolean. *)
Definition analysable (df : DataFrame) : Prop :=
  unambiguous df /\ rows df <> []
  /\ Forall (fun c => text_or_missing c = true) (column_of df "Denial_Reason").

(** A denial reason that is missing or blank. *)
Definition blank_reason (c : cell) : bool :=
  match c with
  | NaN => true
  | Str t => bool_decide (Text.strip t = "")
  | _ => false
  end.

(** The mask [df["Is_Denied"]] of the cleaned frame, row by row. *)
Definition denied_mask (df : DataFrame) : list cell :=
  (fun r => Bool (row_denied df r)) <$> rows df.

(** The group keys of a key column: the keys present, once each, in order. *)
Definition group_keys (keys : list cell) : list cell :=
  merge_sort (fun a b => Is_true (cell_leb a b)) (remove_dups (dropna keys)).

(** The row the specification gives a CPT code: its claims, its denied
    claims, and the rate rounded to two decimals. *)
Definition cpt_row_for (df : DataFrame) (code : cell) : cpt_row :=
  let t := total_claims df "CPT_Code" code in
  let d := denied_claims df "CPT_Code" code in
  {| CPT_Code := code; Total_Claims := t; Denied_Claims := d;
     Denial_Rate := round 2 (Qc_of_nat d / Qc_of_nat t * Qc_of_Z 100)%Qc |}.

(** The row of a CPT code in a table without denials. *)
Definition quiet_row (df : DataFrame) (code : cell) : cpt_row :=
  {| CPT_Code := code; Total_Claims := total_claims df "CPT_Code" code;
     Denied_Claims := 0; Denial_Rate := Qc_of_Z 0 |}.

(** The frame after the cleaning lines, written from the frame as uploaded. *)
Definition cleaned (df : DataFrame) : DataFrame :=
  setitem
    (setitem
       (setitem df "Payment_Amount" (clean_cells (column_of df "Payment_Amount")))
       "Balance" (clean_cells (column_of df "Balance")))
    "Is_Denied" ((fun c => Bool (is_denied c)) <$> column_of df "Denial_Reason").


(** Offset [h] does not give [load_csv] its table: parsing there raises, or
    the frame read lacks a required column. *)
Definition offset_rejected (h : nat) (file : list (list string)) : Prop :=
  forall df0, read_csv h file = Ok df0 -> has_required (normalize_columns df0) = false.



(** A table listed by decreasing count: wherever the table is cut in two,
    no row of the second part has a higher count than a row of the first. *)
Definition descending {A} (count : A -> nat) (t : list A) : Prop :=
  forall l1 l2 x y, t = (l1 ++ l2)%list -> x ∈ l1 -> y ∈ l2 -> (count y <= count x)%nat.

(** ** Sample uploads *)

(** A report with a banner line before the header. *)
Definition sample_csv : list (list string) :=
  [ ["Claims export"; "2024"];
    ["Procedure Code"; "Payer Name"; "Doctor Name"; "Paid Amount"; "Balance"; "Denial Reason"];
    ["99213"; "Aetna"; "Dr A"; "$1,234.56"; "0"; ""];
    ["99213"; "Aetna"; "Dr B"; "N/A"; "10"; "Missing modifier 59, bundling issue"];
    ["99213"; "Cigna"; "Dr A"; "5"; "10"; ""];
    ["99213"; "Cigna"; "Dr A"; "5"; "10"; "   "];
    ["99214"; ""; "Dr B"; "5"; "10"; "Prior authorization missing"];
    ["99215"; "Aetna"; ""; "7"; "0"; "Not covered 96"] ].

Definition frame_of (file : list (list string)) : DataFrame :=
  default {| columns := []; rows := [] |} (load_csv file).2.

Definition sample_frame : DataFrame := frame_of sample_csv.

(** A report in which no claim is denied. *)
Definition quiet_csv : list (list string) :=
  [ ["CPT_Code"; "Insurance_Company"; "Physician_Name"; "Payment_Amount"; "Balance"; "Denial_Reason"];
    ["99213"; "Aetna"; "Dr A"; "100"; "0"; ""] ].

(** A report whose denial reasons are denial codes. *)
Definition coded_csv : list (list string) :=
  [ ["CPT_Code"; "Insurance_Company"; "Physician_Name"; "Payment_Amount"; "Balance"; "Denial_Reason"];
    ["99213"; "Aetna"; "Dr A"; "100"; "0"; "16"];
    ["99214"; "Cigna"; "Dr B"; "80"; "20"; "45"] ].

(** ** Text lemmas *)

Section text_lemmas.
Import Text.

Lemma lower_app s t : lower (s +:+ t) = lower s +:+ lower t.
Proof. induction s as [|c s IH]; simpl; [done | by rewrite IH]. Qed.

Lemma drop_chars_app class s t :
  drop_chars class (s +:+ t) = drop_chars class s +:+ drop_chars class t.
Proof.
  induction s as [|c s IH]; simpl; [done|].
  destruct (class c); simpl; by rewrite IH.
Qed.

Lemma space_not_alnum c : is_space c = true -> not_lower_alnum (lower_char c) = true.
Proof. revert c. by intros [[] [] [] [] [] [] [] []]; vm_compute. Qed.

Lemma not_alnum_dropped c : is_alnum c = false -> not_lower_alnum (lower_char c) = true.
Proof. revert c. by intros [[] [] [] [] [] [] [] []]; vm_compute. Qed.

Lemma drop_lower_lstrip s :
  drop_chars not_lower_alnum (lower (lstrip s)) = drop_chars not_lower_alnum (lower s).
Proof.
  induction s as [|c s IH]; simpl; [done|].
  destruct (is_space c) eqn:Hc; [|done].
  by rewrite (space_not_alnum c Hc).
Qed.

Lemma drop_lower_rstrip s :
  drop_chars not_lower_alnum (lower (rstrip s)) = drop_chars not_lower_alnum (lower s).
Proof.
  induction s as [|c s IH]; simpl; [done|].
  rewrite <- IH. destruct (rstrip s) as [|c' r]; simpl; [|done].
  destruct (is_space c) eqn:Hc; simpl; [|done].
  by rewrite (space_not_alnum c Hc).
Qed.

(** Trimming is subsumed by the removal of [[^a-z0-9]]. *)
Lemma clean_header_alt s :
  clean_header s = drop_chars not_lower_alnum (lower s).
Proof. unfold clean_header, strip. by rewrite drop_lower_rstrip, drop_lower_lstrip. Qed.

End text_lemmas.

(** ** The column normalizer *)

Lemma rename_dict_lookup (cols : list string) (col : string) :
  col ∈ cols -> rename_dict cols !! col = col_map !! col.
Proof.
  intros Hin. unfold rename_dict.
  destruct (col_map !! col) as [v|] eqn:Hv.
  - apply elem_of_list_to_map_1'.
    + intros v' Hv'. apply list_elem_of_omap in Hv' as (c & _ & Hc).
      destruct (col_map !! c) eqn:Hc'; [|done].
      injection Hc as -> ->. congruence.
    + apply list_elem_of_omap. exists col. by rewrite Hv.
  - apply not_elem_of_list_to_map_1. intros Hk.
    apply list_elem_of_fmap in Hk as ([c v] & -> & Hcv).
    apply list_elem_of_omap in Hcv as (c' & _ & Hc').
    destruct (col_map !! c') eqn:E; [|done].
    injection Hc' as -> ->. simpl in Hv. congruence.
Qed.

(** [normalize_columns] renames each header on its own. *)
Lemma normalize_header_row_names (raw : list string) :
  normalize_header_row raw = normalize_name <$> raw.
Proof.
  unfold normalize_header_row, rename, normalize_name.
  rewrite <- list_fmap_compose. apply Forall_fmap_ext_1, Forall_forall.
  intros r Hr. unfold compose. rewrite rename_dict_lookup; [done|].
  by apply list_elem_of_fmap_2.
Qed.

Lemma clean_header_variant (s t : string) :
  synonym_variant s t -> normalize_name s = normalize_name t.
Proof.
  induction 1 as [s|s t _ IH|s t u _ IH1 _ IH2|s t Hst|s1 c s2 Hc|s t k Hs Ht].
  - done.
  - done.
  - congruence.
  - unfold normalize_name. by rewrite !clean_header_alt, Hst.
  - unfold normalize_name. rewrite !clean_header_alt, !lower_app.
    cbn [Text.lower]. rewrite !drop_chars_app. cbn [Text.drop_chars].
    by rewrite (not_alnum_dropped c Hc).
  - unfold normalize_name. by rewrite Hs, Ht.
Qed.

(** C8.  Raw header names that are variants of one another (case, blanks,
    punctuation, synonyms of the table) are given the same column name by
    the normalizer, alone or inside a header row; so ["Procedure Code"],
    ["procedurecode"] and [" CPT_Code "] all become [CPT_Code]. *)
Theorem normalizer_identifies_variants (s t : string) (H : synonym_variant s t) :
  normalize_name s = normalize_name t
  /\ (forall before between after,
        exists n, normalize_header_row (before ++ s :: between ++ t :: after)
                  = (normalize_name <$> before) ++ n :: (normalize_name <$> between)
                      ++ n :: (normalize_name <$> after))%list
  /\ normalize_header_row ["Procedure Code"; "procedurecode"; " CPT_Code "]
     = ["CPT_Code"; "CPT_Code"; "CPT_Code"].
Proof.
  split; [by apply clean_header_variant|]. split; [|by vm_compute].
  intros before between after. exists (normalize_name s).
  rewrite normalize_header_row_names, fmap_app, fmap_cons, fmap_app, fmap_cons.
  by rewrite (clean_header_variant s t H).
Qed.

Lemma normalizer_identifies_variants_witness :
  synonym_variant "Procedure Code" " CPT_Code "
  /\ normalize_name "Procedure Code" = normalize_name " CPT_Code ".
Proof.
  assert (Hv : synonym_variant "Procedure Code" " CPT_Code ").
  { by apply (sv_table _ _ "CPT_Code"); vm_compute. }
  split; [exact Hv|].
  exact (proj1 (normalizer_identifies_variants "Procedure Code" " CPT_Code " Hv)).
Defined.

(** ** Frames: selecting and assigning columns *)

Section frame_lemmas.
Implicit Types (df : DataFrame) (name : string) (r : list cell) (s : list cell).

Lemma label_index_lt name cols i :
  label_index name cols = Some i -> (i < length cols)%nat.
Proof.
  unfold label_index. destruct (list_find _ cols) as [[j c]|] eqn:Hf; [|done].
  intros [= <-]. apply list_find_Some in Hf as (Hj & _). by eapply lookup_lt_Some.
Qed.

Lemma label_index_None name cols :
  label_index name cols = None <-> label_count name cols = 0%nat.
Proof.
  unfold label_index, label_count. rewrite fmap_None, list_find_None.
  rewrite length_zero_iff_nil. split.
  - intros Hall. induction Hall as [|c cols Hc _ IH]; [done|].
    by rewrite filter_cons_False.
  - intros Hnil. apply Forall_forall. intros c Hc ->.
    by eapply (filter_nil_not_elem_of _ cols name) in Hnil.
Qed.

Lemma label_count_snoc name name' cols :
  label_count name' (cols ++ [name])
  = (label_count name' cols + if decide (name = name') then 1 else 0)%nat.
Proof.
  unfold label_count. rewrite filter_app, length_app. f_equal.
  rewrite filter_cons, filter_nil. by destruct (decide _).
Qed.

Lemma label_index_snoc_ne name name' cols :
  name' <> name -> label_index name' (cols ++ [name]) = label_index name' cols.
Proof.
  intros Hne. unfold label_index.
  destruct (list_find _ cols) as [[j c]|] eqn:Hf.
  - by rewrite (list_find_app_l _ _ _ _ _ Hf).
  - rewrite list_find_app_r by done. simpl.
    by rewrite decide_False by congruence.
Qed.

Lemma label_index_snoc_new name cols :
  label_count name cols = 0%nat -> label_index name (cols ++ [name]) = Some (length cols).
Proof.
  intros H0. apply label_index_None in H0. unfold label_index in *.
  apply fmap_None in H0. rewrite list_find_app_r by done. simpl.
  by rewrite decide_True by done.
Qed.

Lemma cell_at_resize i r w : (i < w)%nat -> cell_at i (resize w NaN r) = cell_at i r.
Proof.
  intros Hi. unfold cell_at. destruct (decide (i < length r)%nat).
  - by rewrite lookup_resize.
  - rewrite lookup_resize_new by lia. by rewrite lookup_ge_None_2 by lia.
Qed.

Lemma cell_at_insert_ne i j v r w :
  i <> j -> (j < w)%nat -> cell_at j (<[i := v]> (resize w NaN r)) = cell_at j r.
Proof.
  intros Hne Hj. rewrite <- (cell_at_resize j r w Hj). unfold cell_at.
  by rewrite list_lookup_insert_ne.
Qed.

Lemma cell_at_insert_eq i v r w :
  (i < w)%nat -> cell_at i (<[i := v]> (resize w NaN r)) = v.
Proof.
  intros Hi. unfold cell_at. rewrite list_lookup_insert_eq; [done|].
  by rewrite length_resize.
Qed.

Lemma cell_at_snoc_old j v r w :
  (j < w)%nat -> cell_at j (resize w NaN r ++ [v]) = cell_at j r.
Proof.
  intros Hj. rewrite <- (cell_at_resize j r w Hj). unfold cell_at.
  rewrite lookup_app_l; [done|]. by rewrite length_resize.
Qed.

Lemma cell_at_snoc_new v r w : cell_at w (resize w NaN r ++ [v]) = v.
Proof.
  unfold cell_at. rewrite lookup_app_r by (rewrite length_resize; lia).
  by rewrite length_resize, Nat.sub_diag.
Qed.

Lemma fmap_zip_with_l {A B C D} (g : C -> D) (g' : A -> D) (f : A -> B -> C)
    (xs : list A) (ys : list B) :
  length ys = length xs -> (forall x y, g (f x y) = g' x) ->
  g <$> zip_with f xs ys = g' <$> xs.
Proof.
  intros Hlen Hg. revert ys Hlen.
  induction xs as [|x xs IH]; intros [|y ys] ?; simplify_eq/=; [done|].
  f_equal; auto.
Qed.

Lemma fmap_zip_with_r {A B C} (g : C -> B) (f : A -> B -> C)
    (xs : list A) (ys : list B) :
  length ys = length xs -> (forall x y, g (f x y) = y) ->
  g <$> zip_with f xs ys = ys.
Proof.
  intros Hlen Hg. revert ys Hlen.
  induction xs as [|x xs IH]; intros [|y ys] ?; simplify_eq/=; [done|].
  f_equal; auto.
Qed.

Lemma column_Ok df name e col :
  column df name e = Ok col -> col = column_of df name /\ one_column df name.
Proof.
  unfold column, column_of, cell_of, one_column.
  destruct (label_index name (columns df)) as [i|]; [|done].
  destruct (_ =? 1)%nat eqn:Hc; [|done].
  apply Nat.eqb_eq in Hc. by intros [= <-].
Qed.

Lemma column_one df name e :
  one_column df name -> column df name e = Ok (column_of df name).
Proof.
  unfold column, column_of, cell_of, one_column. intros H1.
  destruct (label_index name (columns df)) as [i|] eqn:Hi.
  - by rewrite H1.
  - apply label_index_None in Hi. congruence.
Qed.

Lemma length_column_of df name : length (column_of df name) = length (rows df).
Proof. unfold column_of. by rewrite length_fmap. Qed.

Lemma rows_setitem df name s :
  length s = length (rows df) -> length (rows (setitem df name s)) = length (rows df).
Proof.
  intros Hs. unfold setitem.
  destruct (label_index name (columns df)); simpl;
    by rewrite length_zip_with_l_eq.
Qed.

Lemma label_count_setitem df name name' s :
  name' <> name ->
  label_count name' (columns (setitem df name s)) = label_count name' (columns df).
Proof.
  intros Hne. unfold setitem.
  destruct (label_index name (columns df)); simpl; [done|].
  rewrite label_count_snoc. rewrite decide_False by congruence. lia.
Qed.

(** Assigning a column leaves the other columns as they were. *)
Lemma column_of_setitem_other df name name' s :
  name' <> name -> length s = length (rows df) ->
  column_of (setitem df name s) name' = column_of df name'.
Proof.
  intros Hne Hs. unfold column_of, cell_of, setitem.
  destruct (label_index name (columns df)) as [i|] eqn:Hi; simpl.
  - destruct (label_index name' (columns df)) as [j|] eqn:Hj.
    + apply fmap_zip_with_l; [done|]. intros r v.
      apply cell_at_insert_ne; [|by eapply label_index_lt].
      intros ->. unfold label_index in *.
      destruct (list_find _ (columns df)) as [[a b]|] eqn:Ha; simplify_eq/=.
      destruct (list_find (fun c => c = name') (columns df)) as [[a' b']|] eqn:Hb;
        simplify_eq/=.
      apply list_find_Some in Ha as (Ha1 & Ha2 & _).
      apply list_find_Some in Hb as (Hb1 & Hb2 & _). congruence.
    + apply fmap_zip_with_l; [done|]. done.
  - rewrite label_index_snoc_ne by done.
    destruct (label_index name' (columns df)) as [j|] eqn:Hj.
    + apply fmap_zip_with_l; [done|]. intros r v.
      apply cell_at_snoc_old. by eapply label_index_lt.
    + apply fmap_zip_with_l; [done|]. done.
Qed.

(** Assigning a column whose label is not ambiguous stores the series. *)
Lemma column_of_setitem_same df name s :
  (label_count name (columns df) <= 1)%nat -> length s = length (rows df) ->
  column_of (setitem df name s) name = s
  /\ one_column (setitem df name s) name.
Proof.
  intros Hc Hs. unfold column_of, cell_of, one_column, setitem.
  destruct (label_index name (columns df)) as [i|] eqn:Hi; simpl.
  - rewrite Hi. split.
    + apply fmap_zip_with_r; [done|]. intros r v.
      apply cell_at_insert_eq. by eapply label_index_lt.
    + destruct (label_count name (columns df)) as [|[|n]] eqn:Hn; [|done|lia].
      apply label_index_None in Hn. congruence.
  - apply label_index_None in Hi as Hi'.
    rewrite label_index_snoc_new, label_count_snoc, Hi' by done.
    rewrite decide_True by done. split; [|done].
    apply fmap_zip_with_r; [done|]. intros r v. apply cell_at_snoc_new.
Qed.

Lemma select_rows_fmap {A B} (f : A -> B) (xs : list A) mask :
  select_rows (f <$> xs) mask = f <$> select_rows xs mask.
Proof.
  revert mask. induction xs as [|x xs IH]; intros [|m mask]; simpl; try done.
  destruct (bool_decide _); simpl; by rewrite IH.
Qed.

Lemma select_rows_filter {A} (g : A -> bool) (xs : list A) :
  select_rows xs ((fun x => Bool (g x)) <$> xs) = filter (fun x => g x = true) xs.
Proof.
  induction xs as [|x xs IH]; simpl; [done|].
  rewrite filter_cons. destruct (g x) eqn:Hg; simpl; [f_equal|]; apply IH.
Qed.

End frame_lemmas.

(** ** The cleaning lines *)

Ltac solve_len :=
  repeat first [ done | rewrite length_fmap | rewrite length_column_of
               | rewrite rows_setitem | progress unfold clean_cells ].

Ltac inv_bind H :=
  match type of H with
  | bind ?m _ = Ok _ =>
      let E := fresh "E" in destruct m eqn:E; simpl in H; [|discriminate H]
  end.

Lemma replace_class_all_bool (class : ascii -> bool) (s : list cell) :
  forallb is_bool (replace_class class s) = forallb is_bool s.
Proof.
  unfold replace_class. induction s as [|c s IH]; [done|].
  rewrite fmap_cons. cbn [forallb]. rewrite IH. by destruct c.
Qed.

Lemma clean_currency_cells (s : list cell) : clean_currency s = clean_cells s.
Proof.
  unfold clean_currency, fillna, to_numeric_coerce, clean_cells.
  rewrite replace_class_all_bool. unfold replace_class.
  rewrite <- !list_fmap_compose. apply Forall_fmap_ext_1, Forall_forall.
  intros [|t|q|b] _; simpl; try done.
  - by destruct (parse_number _).
  - by destruct (forallb is_bool s).
Qed.

Lemma length_clean_cells (s : list cell) : length (clean_cells s) = length s.
Proof. unfold clean_cells. by rewrite length_fmap. Qed.

Lemma apply_strip_nonempty (reason : list cell) :
  apply strip_nonempty (fillna (Str "") reason)
  = if forallb text_or_missing reason
    then Ok ((fun c => Bool (is_denied c)) <$> reason)
    else Raise AttributeError.
Proof.
  unfold apply, fillna. induction reason as [|c reason IH]; csimpl; [done|].
  destruct c as [|t|q|b]; csimpl; try done.
  - rewrite IH. by destruct (forallb _ _).
  - rewrite IH. by destruct (forallb _ _).
Qed.

Lemma one_column_setitem df name name' s :
  name' <> name -> one_column (setitem df name s) name' <-> one_column df name'.
Proof. intros Hne. unfold one_column. by rewrite label_count_setitem. Qed.

(** The cleaning lines return exactly when the two currency labels and
    [Denial_Reason] each select one column and no denial reason is a number
    or a boolean; they then return [cleaned]. *)
Lemma clean_Ok (df df' : DataFrame) :
  clean df = Ok df' <->
  one_column df "Payment_Amount" /\ one_column df "Balance"
  /\ one_column df "Denial_Reason"
  /\ Forall (fun c => text_or_missing c = true) (column_of df "Denial_Reason")
  /\ df' = cleaned df.
Proof.
  unfold clean, cleaned. split.
  - intros H. inv_bind H. apply column_Ok in E as [-> Hpay].
    inv_bind H. apply column_Ok in E as [-> Hbal].
    inv_bind H. apply column_Ok in E as [-> Hreason].
    rewrite !clean_currency_cells in *.
    rewrite apply_strip_nonempty in H.
    destruct (forallb _ _) eqn:Hall; simpl in H; [|done].
    injection H as <-.
    apply one_column_setitem in Hbal; [|done].
    do 2 (apply one_column_setitem in Hreason; [|done]).
    rewrite !column_of_setitem_other in Hall by first [done | solve_len].
    rewrite !column_of_setitem_other by first [done | solve_len].
    repeat split; try done.
    apply Forall_forall. intros c Hc.
    rewrite forallb_forall in Hall. apply Hall. by apply list_elem_of_In.
  - intros (Hpay & Hbal & Hreason & Hall & ->).
    rewrite (column_one _ _ _ Hpay). simpl. rewrite clean_currency_cells.
    rewrite column_one by (by apply one_column_setitem). simpl.
    rewrite clean_currency_cells.
    rewrite column_one by (by do 2 (apply one_column_setitem; [done|])). simpl.
    rewrite apply_strip_nonempty.
    rewrite !column_of_setitem_other by first [done | solve_len].
    assert (forallb text_or_missing (column_of df "Denial_Reason") = true) as ->; [|done].
    apply forallb_forall. intros c Hc. rewrite Forall_forall in Hall.
    apply Hall. by apply list_elem_of_In.
Qed.

(** ** The summary lines *)

Lemma column_eq (df : DataFrame) (name : string) (e : exn) :
  column df name e
  = if decide (one_column df name) then Ok (column_of df name)
    else Raise (if decide (label_count name (columns df) = 0%nat) then KeyError else e).
Proof.
  destruct (decide (one_column df name)) as [H1|H1].
  - by apply column_one.
  - unfold column, one_column in *.
    destruct (label_index name (columns df)) as [i|] eqn:Hi.
    + destruct (_ =? 1)%nat eqn:Hc; [by apply Nat.eqb_eq in Hc|].
      rewrite decide_False; [done|]. intros H0.
      apply label_index_None in H0. congruence.
    + apply label_index_None in Hi. by rewrite decide_True.
Qed.

Lemma column_getitem_mask (df : DataFrame) (mask : list cell) (name : string) (e : exn) :
  mask <> [] ->
  column (getitem_mask df mask) name e
  = do col <- column df name e; Ok (select_rows col mask).
Proof.
  intros Hm. destruct mask as [|m mask]; [done|].
  unfold column, getitem_mask. simpl columns. simpl rows.
  destruct (label_index name (columns df)); [|done].
  destruct (_ =? 1)%nat; [|done]. simpl. by rewrite select_rows_fmap.
Qed.

Lemma column_getitem_empty (df : DataFrame) (name : string) (e : exn) :
  column (getitem_mask df []) name e = Raise KeyError.
Proof. done. Qed.

Lemma rows_cleaned (df : DataFrame) : length (rows (cleaned df)) = length (rows df).
Proof. unfold cleaned. solve_len. Qed.

Lemma column_of_cleaned (df : DataFrame) (name : string) :
  name <> "Payment_Amount" -> name <> "Balance" -> name <> "Is_Denied" ->
  column_of (cleaned df) name = column_of df name.
Proof.
  intros. unfold cleaned.
  by rewrite !column_of_setitem_other by first [done | solve_len].
Qed.

Lemma label_count_cleaned (df : DataFrame) (name : string) :
  name <> "Payment_Amount" -> name <> "Balance" -> name <> "Is_Denied" ->
  label_count name (columns (cleaned df)) = label_count name (columns df).
Proof. intros. unfold cleaned. by rewrite !label_count_setitem. Qed.

Lemma denied_mask_column (df : DataFrame) :
  (fun c => Bool (is_denied c)) <$> column_of df "Denial_Reason" = denied_mask df.
Proof. unfold column_of, denied_mask, row_denied. by rewrite <- list_fmap_compose. Qed.

Lemma denied_mask_nil (df : DataFrame) : denied_mask df = [] <-> rows df = [].
Proof. unfold denied_mask. by destruct (rows df). Qed.

(** [df[df["Is_Denied"]]] on the cleaned frame. *)
Lemma denied_rows_cleaned (df : DataFrame) :
  denied_rows (cleaned df)
  = if decide (label_count "Is_Denied" (columns df) <= 1)%nat
    then Ok (getitem_mask (cleaned df) (denied_mask df))
    else Raise KeyError.
Proof.
  unfold denied_rows. rewrite column_eq.
  set (df2 := setitem (setitem df "Payment_Amount"
                         (clean_cells (column_of df "Payment_Amount")))
                      "Balance" (clean_cells (column_of df "Balance"))).
  set (flags := (fun c => Bool (is_denied c)) <$> column_of df "Denial_Reason").
  assert (Hcl : cleaned df = setitem df2 "Is_Denied" flags) by done.
  assert (Hc : label_count "Is_Denied" (columns df2) = label_count "Is_Denied" (columns df)).
  { unfold df2. by rewrite !label_count_setitem. }
  assert (Hl : length flags = length (rows df2)).
  { unfold flags, df2. solve_len. }
  destruct (decide (label_count "Is_Denied" (columns df) <= 1)%nat) as [Hle|Hgt].
  - destruct (column_of_setitem_same df2 "Is_Denied" flags ltac:(by rewrite Hc) Hl)
      as [Hs H1].
    rewrite <- Hcl in Hs, H1.
    rewrite decide_True by done. simpl. rewrite Hs. unfold flags.
    by rewrite denied_mask_column.
  - rewrite decide_False.
    + simpl. by destruct (decide _).
    + rewrite Hcl. unfold one_column, setitem.
      destruct (label_index "Is_Denied" (columns df2)) as [i|] eqn:Hi; simpl.
      * lia.
      * apply label_index_None in Hi. lia.
Qed.

Lemma denied_select (df : DataFrame) (name : string) :
  select_rows (column_of df name) (denied_mask df) = denied_column df name.
Proof.
  unfold column_of, denied_mask, denied_column.
  by rewrite select_rows_fmap, (select_rows_filter (row_denied df)).
Qed.

(** The key column of the denied rows of the cleaned frame. *)
Lemma denied_column_cleaned (df : DataFrame) (name : string) (e : exn) :
  name <> "Payment_Amount" -> name <> "Balance" -> name <> "Is_Denied" ->
  column (getitem_mask (cleaned df) (denied_mask df)) name e
  = if decide (rows df = []) then Raise KeyError
    else if decide (one_column df name) then Ok (denied_column df name)
    else Raise (if decide (label_count name (columns df) = 0%nat) then KeyError else e).
Proof.
  intros H1 H2 H3. destruct (decide (rows df = [])) as [Hr|Hr].
  - apply denied_mask_nil in Hr as ->. apply column_getitem_empty.
  - rewrite column_getitem_mask by (by rewrite denied_mask_nil).
    rewrite column_eq.
    pose proof (label_count_cleaned df name H1 H2 H3) as Hcnt.
    destruct (decide (one_column df name)) as [Ho|Ho].
    + rewrite decide_True by (unfold one_column in *; congruence). simpl.
      by rewrite column_of_cleaned, denied_select.
    + rewrite decide_False by (unfold one_column in *; congruence). simpl.
      do 2 destruct (decide (_ = 0%nat)); congruence.
Qed.

Lemma denied_reasons_texts (df : DataFrame) :
  astype_str <$> dropna (denied_column df "Denial_Reason") = denied_reasons df.
Proof.
  unfold denied_column, denied_reasons, row_denied, dropna.
  induction (rows df) as [|r rs IH]; [done|].
  rewrite filter_cons. cbn [omap list_omap].
  destruct (decide (is_denied (cell_of df "Denial_Reason" r) = true)) as [Hd|Hd].
  - destruct (cell_of df "Denial_Reason" r) as [|t|q|b] eqn:Hc; try discriminate.
    rewrite Hd, fmap_cons, Hc, filter_cons_True, fmap_cons by done.
    simpl astype_str. f_equal. apply IH.
  - rewrite IH. destruct (cell_of df "Denial_Reason" r) as [|t|q|b]; try done.
    by destruct (is_denied (Str t)).
Qed.

Lemma one_column_cleaned (df : DataFrame) (name : string) :
  name <> "Payment_Amount" -> name <> "Balance" -> name <> "Is_Denied" ->
  one_column (cleaned df) name <-> one_column df name.
Proof. intros. unfold one_column. by rewrite label_count_cleaned. Qed.

(** The summary lines, on the cleaned frame, return exactly when the labels
    they use each select one column and the frame has a row; they then
    return [analysis_of]. *)
Lemma summarise_cleaned (df : DataFrame) (a : analysis) :
  summarise (cleaned df) = Ok a <->
  ((label_count "Is_Denied" (columns df) <= 1)%nat /\ rows df <> []
   /\ one_column df "CPT_Code" /\ one_column df "Insurance_Company"
   /\ one_column df "Physician_Name" /\ one_column df "Denial_Reason")
  /\ a = analysis_of df.
Proof.
  unfold summarise, groupby_size.
  rewrite denied_rows_cleaned.
  destruct (decide (label_count "Is_Denied" (columns df) <= 1)%nat) as [Hf|Hf];
    cbn [bind]; [|split; [done|intros [(? & _) _]; lia]].
  rewrite denied_column_cleaned by done.
  destruct (decide (rows df = [])) as [Hr|Hr];
    cbn [bind]; [split; [done|intros [(_ & ? & _) _]; done]|].
  destruct (decide (one_column df "CPT_Code")) as [Hcpt|Hcpt];
    cbn [bind]; [|split; [done|intros [(_ & _ & ? & _) _]; done]].
  rewrite column_eq, decide_True by (by apply one_column_cleaned).
  cbn [bind]. rewrite column_of_cleaned by done.
  rewrite denied_column_cleaned, decide_False by done.
  destruct (decide (one_column df "Insurance_Company")) as [Hpayer|Hpayer];
    cbn [bind]; [|split; [done|intros [(_ & _ & _ & ? & _) _]; done]].
  rewrite denied_column_cleaned, decide_False by done.
  destruct (decide (one_column df "Physician_Name")) as [Hprov|Hprov];
    cbn [bind]; [|split; [done|intros [(_ & _ & _ & _ & ? & _) _]; done]].
  rewrite denied_column_cleaned, decide_False by done.
  destruct (decide (one_column df "Denial_Reason")) as [Hreason|Hreason];
    cbn [bind]; [|split; [done|intros [(_ & _ & _ & _ & _ & ?) _]; done]].
  rewrite denied_reasons_texts. unfold analysis_of.
  split; [intros [= <-]|intros [_ ->]]; done.
Qed.

(** [analyse] returns exactly on the analysable frames, and returns
    [analysis_of]. *)
Lemma analyse_Ok (df : DataFrame) (a : analysis) :
  analyse df = Ok a <-> analysable df /\ a = analysis_of df.
Proof.
  unfold analyse. split.
  - intros H. inv_bind H. apply clean_Ok in E as (Hpay & Hbal & Hreason & Htext & ->).
    apply summarise_cleaned in H as ((Hf & Hr & Hcpt & Hpayer & Hprov & _) & ->).
    by split; [split; [constructor|]|].
  - intros [([] & Hr & Htext) ->].
    assert (clean df = Ok (cleaned df)) as -> by (by apply clean_Ok).
    cbn [bind]. by apply summarise_cleaned.
Qed.

(** ** Grouping and joining *)

Section tables.
Implicit Types (k : cell) (keys : list cell).

Lemma size_by_key_keys keys :
  size_by_key keys = (fun k => (k, count_eq k (dropna keys))) <$> group_keys keys.
Proof. done. Qed.

Lemma elem_of_dropna k keys : k ∈ dropna keys <-> k ∈ keys /\ k <> NaN.
Proof.
  unfold dropna. rewrite list_elem_of_filter. destruct k; simpl; intuition congruence.
Qed.

Lemma elem_of_group_keys k keys : k ∈ group_keys keys <-> k ∈ keys /\ k <> NaN.
Proof.
  unfold group_keys. rewrite merge_sort_Permutation, elem_of_remove_dups.
  apply elem_of_dropna.
Qed.

Lemma NoDup_group_keys keys : NoDup (group_keys keys).
Proof.
  unfold group_keys. rewrite merge_sort_Permutation. apply NoDup_remove_dups.
Qed.

Lemma count_eq_dropna k keys : k <> NaN -> count_eq k (dropna keys) = count_eq k keys.
Proof.
  intros Hk. unfold count_eq, dropna. induction keys as [|c keys IH]; [done|].
  rewrite !filter_cons. destruct (decide (isna c = false)) as [Hc|Hc].
  - rewrite filter_cons. destruct (decide (c = k)); simpl; by rewrite IH.
  - rewrite decide_False by (intros ->; destruct k; done). apply IH.
Qed.

Lemma count_eq_pos k keys : k ∈ keys <-> (1 <= count_eq k keys)%nat.
Proof.
  unfold count_eq. induction keys as [|c keys IH].
  - simpl. rewrite elem_of_nil. lia.
  - rewrite filter_cons, elem_of_cons. destruct (decide (c = k)) as [->|Hne]; simpl.
    + split; [lia|by left].
    + rewrite <- IH. intuition congruence.
Qed.

Lemma count_eq_fmap {A} (f : A -> cell) k (xs : list A) :
  count_eq k (f <$> xs) = length (filter (fun x => f x = k) xs).
Proof.
  unfold count_eq. induction xs as [|x xs IH]; [done|].
  rewrite fmap_cons, !filter_cons. destruct (decide (f x = k)); simpl; by rewrite IH.
Qed.

Lemma count_eq_fmap_filter {A} (f : A -> cell) (P : A -> Prop)
    `{forall x, Decision (P x)} k (xs : list A) :
  count_eq k (f <$> filter P xs) = length (filter (fun x => f x = k /\ P x) xs).
Proof.
  unfold count_eq. induction xs as [|x xs IH]; [done|].
  rewrite !filter_cons. destruct (decide (P x)) as [HP|HP].
  - rewrite fmap_cons, filter_cons.
    destruct (decide (f x = k)) as [Hf|Hf].
    + rewrite decide_True by done. simpl. by rewrite IH.
    + rewrite decide_False by (by intros []). apply IH.
  - rewrite decide_False by (by intros []). apply IH.
Qed.

(** In a table with one row per key, a key selects its row or nothing. *)
Lemma filter_key_NoDup {B} (c : cell -> B) k (ks : list cell) :
  NoDup ks ->
  filter (fun kd : cell * B => kd.1 = k) ((fun k' => (k', c k')) <$> ks)
  = if decide (k ∈ ks) then [(k, c k)] else [].
Proof.
  induction 1 as [|k' ks Hk' Hnd IH]; [done|].
  rewrite fmap_cons, filter_cons, IH. simpl.
  destruct (decide (k' = k)) as [->|Hne];
    destruct (decide (k ∈ ks)) as [Hin|Hin];
    destruct (decide (k ∈ _ :: ks)) as [Hin'|Hin'];
    try done; exfalso; rewrite elem_of_cons in Hin'; intuition congruence.
Qed.

(** The left join of the totals with the denied counts, null filled with
    0: one row per group key, with both counts. *)
Lemma merge_left_size_by_key keys dkeys :
  (fun r => (r.1.1, r.1.2, default 0%nat r.2))
    <$> merge_left (size_by_key keys) (size_by_key dkeys)
  = (fun k => (k, count_eq k (dropna keys), count_eq k (dropna dkeys)))
      <$> group_keys keys.
Proof.
  rewrite !size_by_key_keys. unfold merge_left.
  induction (group_keys keys) as [|k ks IH]; [done|].
  rewrite !fmap_cons. cbn [flat_map]. rewrite fmap_app, IH. clear IH.
  rewrite (filter_key_NoDup _ k _ (NoDup_group_keys dkeys)).
  destruct (decide (k ∈ group_keys dkeys)) as [Hin|Hin]; simpl; [done|].
  do 2 f_equal. symmetry.
  destruct (count_eq k (dropna dkeys)) eqn:Hc; [done|].
  exfalso. apply Hin. rewrite elem_of_group_keys. apply elem_of_dropna.
  apply count_eq_pos. lia.
Qed.

Lemma sum_indicator k (ks : list cell) :
  NoDup ks ->
  sum_list ((fun k' => if decide (k = k') then 1 else 0)%nat <$> ks)
  = if decide (k ∈ ks) then 1%nat else 0%nat.
Proof.
  induction 1 as [|k' ks Hk' Hnd IH]; [done|].
  rewrite fmap_cons. simpl. rewrite IH.
  destruct (decide (k = k')) as [<-|Hne];
    destruct (decide (k ∈ ks)) as [Hin|Hin];
    destruct (decide (k ∈ _ :: ks)) as [Hin'|Hin'];
    try done; exfalso; rewrite elem_of_cons in Hin'; intuition congruence.
Qed.

(** Over keys listed once each, the group sizes add up to the number of
    entries with a listed key. *)
Lemma sum_counts (ks l : list cell) :
  NoDup ks ->
  sum_list ((fun k => count_eq k l) <$> ks) = length (filter (fun c => c ∈ ks) l).
Proof.
  intros Hnd. induction l as [|c l IH].
  - simpl. induction ks as [|k ks IHks]; [done|].
    rewrite fmap_cons. simpl. apply IHks. by apply NoDup_cons_1_2 in Hnd.
  - rewrite filter_cons.
    assert (sum_list ((fun k => count_eq k (c :: l)) <$> ks)
            = (sum_list ((fun k' => if decide (c = k') then 1 else 0)%nat <$> ks)
               + sum_list ((fun k => count_eq k l) <$> ks))%nat) as ->.
    { clear. induction ks as [|k ks IHks]; [done|].
      rewrite !fmap_cons. simpl. rewrite IHks. unfold count_eq.
      rewrite filter_cons. destruct (decide (c = k)); simpl; lia. }
    rewrite sum_indicator, IH by done. by destruct (decide (c ∈ ks)).
Qed.

Lemma filter_all {A} (P : A -> Prop) `{forall x, Decision (P x)} (l : list A) :
  Forall P l -> filter P l = l.
Proof.
  induction 1 as [|x l Hx _ IH]; [done|].
  by rewrite filter_cons_True, IH.
Qed.

Lemma filter_all_not {A} (P : A -> Prop) `{forall x, Decision (P x)} (l : list A) :
  (forall x, x ∈ l -> ~ P x) -> filter P l = [].
Proof.
  induction l as [|x l IH]; intros Hl; [done|].
  rewrite filter_cons_False by (apply Hl; by left).
  apply IH. intros y Hy. apply Hl. by right.
Qed.

Lemma sum_size_by_key keys :
  sum_list ((size_by_key keys).*2) = length (dropna keys).
Proof.
  rewrite size_by_key_keys, <- list_fmap_compose.
  change (snd ∘ _) with (fun k => count_eq k (dropna keys)).
  rewrite sum_counts by apply NoDup_group_keys.
  f_equal. apply filter_all, Forall_forall. intros c Hc.
  apply elem_of_group_keys. by apply elem_of_dropna.
Qed.

End tables.

(** ** Rounding a rate *)





Lemma round_zero_rate (t : nat) :
  round 2 (Qc_of_nat 0 / Qc_of_nat t * Qc_of_Z 100) = Qc_of_Z 0.
Proof.
  apply Qc_is_canon. unfold round.
  assert (Qc_of_nat 0 / Qc_of_nat t * Qc_of_Z 100 * Qc_of_Z (10 ^ Z.of_nat 2)
          = Q2Qc 0)%Qc as ->; [|done].
  unfold Qcdiv. assert (Qc_of_nat 0 = Q2Qc 0) as -> by (by apply Qc_is_canon).
  by rewrite !Qcmult_0_l.
Qed.

(** ** The CPT analysis table *)

Lemma total_claims_count (df : DataFrame) (name : string) (k : cell) :
  count_eq k (column_of df name) = total_claims df name k.
Proof. unfold column_of, total_claims. apply count_eq_fmap. Qed.

Lemma denied_claims_count (df : DataFrame) (name : string) (k : cell) :
  count_eq k (denied_column df name) = denied_claims df name k.
Proof. unfold denied_column, denied_claims. apply count_eq_fmap_filter. Qed.

(** The CPT analysis has one row per CPT code present, the row the
    specification gives it. *)
Lemma cpt_analysis_rows (df : DataFrame) :
  cpt_analysis (analysis_of df) = cpt_row_for df <$> group_keys (column_of df "CPT_Code").
Proof.
  unfold analysis_of. cbn [cpt_analysis].
  transitivity ((fun r : cell * nat * nat => cpt_row_of (r.1.1, r.1.2, Some r.2))
                  <$> ((fun r => (r.1.1, r.1.2, default 0%nat r.2))
                         <$> merge_left (size_by_key (column_of df "CPT_Code"))
                                        (size_by_key (denied_column df "CPT_Code")))).
  { rewrite <- list_fmap_compose. apply Forall_fmap_ext_1, Forall_forall.
    by intros [[k t] [d|]] _. }
  rewrite merge_left_size_by_key, <- list_fmap_compose.
  apply Forall_fmap_ext_1, Forall_forall. intros k Hk.
  apply elem_of_group_keys in Hk as [_ Hk]. unfold cpt_row_for. simpl.
  by rewrite !count_eq_dropna, total_claims_count, denied_claims_count.
Qed.

Lemma elem_of_sort_desc {A} (count : A -> nat) (x : A) (t : list A) :
  x ∈ sort_desc count t <-> x ∈ t.
Proof. unfold sort_desc. by rewrite merge_sort_Permutation. Qed.

Lemma denied_le_total (df : DataFrame) (name : string) (k : cell) :
  (denied_claims df name k <= total_claims df name k)%nat.
Proof.
  unfold denied_claims, total_claims.
  induction (rows df) as [|r rs IH]; [done|].
  rewrite !filter_cons.
  destruct (decide (cell_of df name r = k)) as [Hk|Hk].
  - destruct (decide (_ /\ _)); simpl; lia.
  - rewrite decide_False by (by intros []). done.
Qed.





(** ** Payers and providers *)

Lemma filter_ext_in {A} (P Q : A -> Prop) `{forall x, Decision (P x)}
    `{forall x, Decision (Q x)} (l : list A) :
  (forall x, x ∈ l -> P x <-> Q x) -> filter P l = filter Q l.
Proof.
  induction l as [|x l IH]; intros Hpq; [done|].
  rewrite !filter_cons.
  rewrite IH by (intros y Hy; apply Hpq; by right).
  destruct (decide (P x)) as [HP|HP].
  - rewrite decide_True; [done|]. apply Hpq; [by left|done].
  - rewrite decide_False; [done|]. intros HQ. apply HP, Hpq; [by left|done].
Qed.

Lemma denied_keyed_length (df : DataFrame) (name : string) :
  length (dropna (denied_column df name)) = denied_keyed df name.
Proof.
  unfold dropna, denied_column, denied_keyed.
  induction (rows df) as [|r rs IH]; [done|].
  rewrite !filter_cons. destruct (decide (row_denied df r = true)) as [Hd|Hd].
  - rewrite fmap_cons. destruct (decide (cell_of df name r = NaN)) as [Hn|Hn].
    + rewrite Hn, filter_cons_False by done.
      rewrite decide_False by (by intros []). apply IH.
    + rewrite filter_cons_True by (by destruct (cell_of df name r)).
      rewrite decide_True by done. simpl. by rewrite IH.
  - rewrite decide_False by (by intros []). apply IH.
Qed.

Lemma denied_keyed_split (df : DataFrame) (name : string) :
  (denied_keyed df name + denied_claims df name NaN)%nat = denied_total df.
Proof.
  unfold denied_keyed, denied_claims, denied_total.
  induction (rows df) as [|r rs IH]; [done|].
  rewrite !filter_cons.
  destruct (decide (row_denied df r = true)) as [Hd|Hd];
    destruct (decide (cell_of df name r = NaN)) as [Hn|Hn].
  - rewrite decide_False by (by intros []). rewrite decide_True by done.
    simpl. lia.
  - rewrite decide_True by done. rewrite decide_False by (by intros []).
    simpl. lia.
  - rewrite !decide_False by (by intros []). done.
  - rewrite !decide_False by (by intros []). done.
Qed.

Lemma elem_of_denied_table (df : DataFrame) (name : string) (k : cell) (n : nat) :
  (k, n) ∈ sort_desc snd (size_by_key (denied_column df name)) ->
  k <> NaN /\ n = denied_claims df name k.
Proof.
  rewrite elem_of_sort_desc, size_by_key_keys.
  intros (k' & [= -> ->] & Hk)%list_elem_of_fmap.
  apply elem_of_group_keys in Hk as [_ Hk]. split; [done|].
  by rewrite count_eq_dropna, denied_claims_count.
Qed.

Lemma sum_denied_table (df : DataFrame) (name : string) :
  sum_list (sort_desc snd (size_by_key (denied_column df name))).*2
  = denied_keyed df name.
Proof.
  unfold sort_desc. rewrite merge_sort_Permutation.
  by rewrite sum_size_by_key, denied_keyed_length.
Qed.

Lemma sum_denied_cpt (df : DataFrame) :
  sum_list (Denied_Claims <$> cpt_analysis (analysis_of df)) = denied_keyed df "CPT_Code".
Proof.
  rewrite cpt_analysis_rows, <- list_fmap_compose.
  change (Denied_Claims ∘ cpt_row_for df)
    with (fun k => denied_claims df "CPT_Code" k).
  erewrite (Forall_fmap_ext_1 _ (fun k => count_eq k (denied_column df "CPT_Code")));
    [|apply Forall_forall; intros k _; symmetry; apply denied_claims_count].
  rewrite sum_counts by apply NoDup_group_keys.
  rewrite <- denied_keyed_length. unfold dropna. f_equal.
  apply filter_ext_in. intros c Hc. rewrite elem_of_group_keys.
  assert (c ∈ column_of df "CPT_Code").
  { unfold denied_column, column_of in *.
    apply list_elem_of_fmap in Hc as (r & -> & Hr).
    apply list_elem_of_filter in Hr as [_ Hr]. by apply list_elem_of_fmap_2. }
  destruct c; simpl; intuition congruence.
Qed.

(** C10.  When [analyse] returns, no table has a row for a missing key: the
    payer, provider and CPT tables count only the denied rows that have a
    key, so their denied counts add up to the denied rows minus those whose
    key is missing, which can be fewer than the denied rows. *)
Theorem null_keys_dropped (df : DataFrame) (a : analysis)
    (Hrun : analyse df = Ok a) :
  (forall k n, (k, n) ∈ payer_denials a ->
     k <> NaN /\ n = denied_claims df "Insurance_Company" k)
  /\ (forall k n, (k, n) ∈ provider_denials a ->
        k <> NaN /\ n = denied_claims df "Physician_Name" k)
  /\ (forall row, row ∈ cpt_analysis a -> CPT_Code row <> NaN)
  /\ sum_list (payer_denials a).*2 = denied_keyed df "Insurance_Company"
  /\ sum_list (provider_denials a).*2 = denied_keyed df "Physician_Name"
  /\ sum_list (Denied_Claims <$> cpt_analysis a) = denied_keyed df "CPT_Code"
  /\ (forall name,
        (denied_keyed df name + denied_claims df name NaN)%nat = denied_total df)
  /\ (exists df' a', analyse df' = Ok a'
        /\ (sum_list (payer_denials a').*2 < denied_total df')%nat
        /\ (sum_list (provider_denials a').*2 < denied_total df')%nat).
Proof.
  apply analyse_Ok in Hrun as [_ ->].
  split; [apply elem_of_denied_table|]. split; [apply elem_of_denied_table|].
  split.
  { intros row. rewrite cpt_analysis_rows.
    intros (k & -> & Hk)%list_elem_of_fmap. by apply elem_of_group_keys in Hk as [_ Hk]. }
  split; [apply sum_denied_table|]. split; [apply sum_denied_table|].
  split; [apply sum_denied_cpt|]. split; [intros name; apply denied_keyed_split|].
  exists sample_frame, (analysis_of sample_frame).
  split; [compute_done|]. split; compute_done.
Qed.

Lemma null_keys_dropped_witness :
  exists a, analyse sample_frame = Ok a
    /\ sum_list (payer_denials a).*2 = 2%nat
    /\ denied_total sample_frame = 3%nat.
Proof.
  exists (analysis_of sample_frame).
  assert (Hrun : analyse sample_frame = Ok (analysis_of sample_frame)) by compute_done.
  pose proof (null_keys_dropped sample_frame _ Hrun) as (_ & _ & _ & Hsum & _).
  split; [exact Hrun|]. split; [|compute_done].
  rewrite Hsum. compute_done.
Defined.

(** ** A table without denials *)

Lemma blank_not_denied (c : cell) : blank_reason c = true -> is_denied c = false.
Proof. destruct c as [|t| |]; simpl; try done. by intros ->. Qed.

Lemma blank_text_or_missing (c : cell) : blank_reason c = true -> text_or_missing c = true.
Proof. by destruct c. Qed.

Lemma no_denied_rows (df : DataFrame) :
  Forall (fun c => blank_reason c = true) (column_of df "Denial_Reason") ->
  filter (fun r => row_denied df r = true) (rows df) = [].
Proof.
  unfold column_of, row_denied. rewrite Forall_fmap.
  induction 1 as [|r rs Hr _ IH]; [done|].
  rewrite filter_cons_False; [done|].
  simpl in Hr. by rewrite (blank_not_denied _ Hr).
Qed.

Lemma group_keys_nil (keys : list cell) :
  group_keys keys = [] <-> Forall (fun c => c = NaN) keys.
Proof.
  split.
  - intros Hnil. apply Forall_forall. intros c Hc.
    destruct (decide (c = NaN)) as [|Hne]; [done|].
    assert (c ∈ group_keys keys) as Hin by (by apply elem_of_group_keys).
    rewrite Hnil in Hin. by apply elem_of_nil in Hin.
  - intros Hall. destruct (group_keys keys) as [|k ks] eqn:Hk; [done|].
    assert (k ∈ group_keys keys) as Hin by (rewrite Hk; by left).
    apply elem_of_group_keys in Hin as [Hin Hne].
    rewrite Forall_forall in Hall. by apply Hall in Hin.
Qed.

(** C5, as the code has it.  On a frame with a row and unambiguous labels
    in which every denial reason is missing or blank, [analyse] returns; the
    payer and provider tables are empty and their charts omitted; the CPT
    analysis still lists every CPT code, with 0 denied claims and rate 0, and
    its chart is omitted exactly when that table is empty, that is when no
    row has a CPT code. *)
Theorem no_denials_tables (df : DataFrame)
    (Hlabels : unambiguous df)
    (Hrows : rows df <> [])
    (Hblank : Forall (fun c => blank_reason c = true) (column_of df "Denial_Reason")) :
  exists a, analyse df = Ok a
    /\ payer_denials a = [] /\ provider_denials a = []
    /\ payer_chart a = None /\ provider_chart a = None
    /\ cpt_analysis a = quiet_row df <$> group_keys (column_of df "CPT_Code")
    /\ (cpt_chart a = None <-> cpt_analysis a = [])
    /\ (cpt_analysis a = [] <-> Forall (fun c => c = NaN) (column_of df "CPT_Code")).
Proof.
  exists (analysis_of df). split.
  { apply analyse_Ok. split; [|done]. split; [done|]. split; [done|].
    eapply Forall_impl; [exact Hblank|]. apply blank_text_or_missing. }
  pose proof (no_denied_rows df Hblank) as Hnone.
  assert (Hcol : forall name, denied_column df name = []).
  { intros name. unfold denied_column. by rewrite Hnone. }
  assert (Hcpt : cpt_analysis (analysis_of df)
                 = quiet_row df <$> group_keys (column_of df "CPT_Code")).
  { rewrite cpt_analysis_rows. apply Forall_fmap_ext_1, Forall_forall.
    intros k _. unfold cpt_row_for, quiet_row.
    rewrite <- (denied_claims_count df "CPT_Code" k), Hcol.
    change (count_eq k []) with 0%nat. by rewrite round_zero_rate. }
  split; [|split; [|split; [|split; [|split; [exact Hcpt|split]]]]].
  - unfold analysis_of. cbn [payer_denials]. by rewrite Hcol.
  - unfold analysis_of. cbn [provider_denials]. by rewrite Hcol.
  - unfold analysis_of. cbn [payer_chart]. by rewrite Hcol.
  - unfold analysis_of. cbn [provider_chart]. by rewrite Hcol.
  - unfold analysis_of. cbn [cpt_chart cpt_analysis]. by case_bool_decide.
  - rewrite Hcpt, <- group_keys_nil. split; [apply fmap_nil_inv|by intros ->].
Qed.

Lemma no_denials_tables_witness :
  exists a, analyse (frame_of quiet_csv) = Ok a
    /\ payer_denials a = [] /\ provider_denials a = []
    /\ payer_chart a = None /\ provider_chart a = None.
Proof.
  destruct (no_denials_tables (frame_of quiet_csv)) as (a & Hrun & H1 & H2 & H3 & H4 & _).
  - split; compute_done.
  - compute_done.
  - compute_done.
  - exists a. by repeat split.
Defined.

(** C5, as stated, fails: a table with one claim and no denial is accepted,
    its CPT analysis has a row, and the CPT chart is drawn on the page. *)
Lemma no_denials_cpt_table_not_empty :
  has_required (frame_of quiet_csv) = true
  /\ Forall (fun c => blank_reason c = true) (column_of (frame_of quiet_csv) "Denial_Reason")
  /\ exists a p,
       analyse (frame_of quiet_csv) = Ok a
       /\ index {| meth := POST;
                   file_part := Some {| filename := "claims.csv"; stream := quiet_csv |} |}
          = ([0%nat], Rendered (Some p))
       /\ cpt_analysis a
          = [ {| CPT_Code := Num (Qc_of_Z 99213); Total_Claims := 1;
                 Denied_Claims := 0; Denial_Rate := Qc_of_Z 0 |} ]
       /\ cpt_analysis_html p = cpt_analysis a
       /\ cpt_chart a = Some (cpt_analysis a)
       /\ page_cpt_chart p = Some (cpt_analysis a).
Proof.
  split; [compute_done|]. split; [compute_done|].
  exists (analysis_of (frame_of quiet_csv)), (render (analysis_of (frame_of quiet_csv))).
  repeat split; compute_done.
Qed.

(** ** Root causes *)

(** The patterns of the eight [str.contains] calls are alternations of
    literals, and their alternatives are the keywords of the specification. *)
Lemma root_cause_patterns_literal :
  forallb (fun np => Text.no_meta np.2) root_cause_patterns = true
  /\ root_cause_keywords = (fun np => (np.1, Text.split "|" np.2)) <$> root_cause_patterns.
Proof. split; reflexivity. Qed.

Lemma str_contains_sum_mentions (pat : string) (texts : list string) :
  str_contains_sum pat false texts
  = length (filter (fun s => mentions (Text.split "|" pat) s = true) texts).
Proof. reflexivity. Qed.

Lemma root_causes_counts (texts : list string) :
  root_causes texts
  = (fun ck => (ck.1, length (filter (fun s => mentions ck.2 s = true) texts)))
      <$> root_cause_keywords.
Proof.
  destruct root_cause_patterns_literal as [_ ->].
  unfold root_causes. rewrite <- list_fmap_compose.
  apply Forall_fmap_ext_1, Forall_forall. intros [n pat] _.
  unfold compose. cbn [fst snd]. by rewrite str_contains_sum_mentions.
Qed.

(** C2.  When [analyse] returns, the root-cause table has the eight
    categories, each with the number of denial reasons of denied rows that
    contain one of its keywords, whatever the case; a reason is counted in
    every category it matches: one more reason "Missing modifier 59, bundling
    issue" adds one to both "Modifier Issues" and "Bundling Edits (NCCI)". *)
Theorem root_causes_overlap (df : DataFrame) (a : analysis)
    (Hrun : analyse df = Ok a) :
  (fun r => (r.1.1, r.1.2)) <$> root_causes_df a
  = (fun ck => (ck.1, length (filter (fun s => mentions ck.2 s = true) (denied_reasons df))))
      <$> root_cause_keywords
  /\ length (root_causes_df a) = 8%nat
  /\ (forall rest,
        let texts := "Missing modifier 59, bundling issue" :: rest in
        count_of "Modifier Issues" (root_causes texts)
        = S <$> count_of "Modifier Issues" (root_causes rest)
        /\ count_of "Bundling Edits (NCCI)" (root_causes texts)
           = S <$> count_of "Bundling Edits (NCCI)" (root_causes rest)
        /\ is_Some (count_of "Modifier Issues" (root_causes rest))
        /\ is_Some (count_of "Bundling Edits (NCCI)" (root_causes rest))).
Proof.
  apply analyse_Ok in Hrun as [_ ->].
  split; [|split].
  - unfold analysis_of. cbn [root_causes_df].
    rewrite <- list_fmap_compose, <- root_causes_counts.
    rewrite <- (list_fmap_id (root_causes (denied_reasons df))) at 2.
    apply Forall_fmap_ext_1, Forall_forall. by intros [n c] _.
  - unfold analysis_of. cbn [root_causes_df]. by rewrite length_fmap.
  - intros rest texts. unfold texts.
    repeat split; try (vm_compute; reflexivity); vm_compute; eauto.
Qed.

Lemma root_causes_overlap_witness :
  exists a, analyse sample_frame = Ok a
    /\ (fun r => (r.1.1, r.1.2)) <$> root_causes_df a
       = [ ("Modifier Issues", 1%nat); ("LCD/NCD Mismatch", 0%nat);
           ("Bundling Edits (NCCI)", 1%nat); ("Lack of Documentation", 0%nat);
           ("Prior Authorization Problems", 1%nat);
           ("Credentialing or Enrollment Issues", 0%nat);
           ("Charge Exceeds Fee Schedule", 0%nat); ("Non-covered Service", 1%nat) ].
Proof.
  exists (analysis_of sample_frame).
  assert (Hrun : analyse sample_frame = Ok (analysis_of sample_frame)) by compute_done.
  pose proof (root_causes_overlap sample_frame _ Hrun) as (Hcounts & _).
  split; [exact Hrun|]. rewrite Hcounts. compute_done.
Defined.

(** ** Currency cells *)



(** ** Requests the handler does not answer as specified *)

(** C6.  The cleaning lines raise on an accepted table: a Denial_Reason
    column of denial codes is read as numbers, a number has no [strip], and
    the [AttributeError] escapes the handler. *)
Theorem cleaning_raises_on_denial_codes :
  load_csv coded_csv = ([0%nat], Some (frame_of coded_csv))
  /\ has_required (frame_of coded_csv) = true
  /\ column_of (frame_of coded_csv) "Denial_Reason" = [Num (Qc_of_Z 16); Num (Qc_of_Z 45)]
  /\ clean (frame_of coded_csv) = Raise AttributeError
  /\ index {| meth := POST;
              file_part := Some {| filename := "claims.csv"; stream := coded_csv |} |}
     = ([0%nat], Unhandled AttributeError).
Proof. repeat split; compute_done. Qed.

(** The handler parses nothing and renders the blank page whenever the
    file name is not empty and does not end in [.csv]. *)
Lemma index_wrong_extension (file : upload) :
  filename file <> "" -> Text.endswith (filename file) ".csv" = false ->
  index {| meth := POST; file_part := Some file |} = ([], Rendered None).
Proof.
  intros Hname Hext. unfold index. cbn [meth file_part].
  rewrite bool_decide_eq_false_2 by done. by rewrite Hext.
Qed.

(** C4.  An upload named [claims.txt] is not parsed, but it is not answered
    with an error either: the handler renders the blank page, as for a GET. *)
Theorem wrong_extension_renders_blank_page (content : list (list string)) :
  let req := {| meth := POST;
                file_part := Some {| filename := "claims.txt"; stream := content |} |} in
  index req = ([], Rendered None)
  /\ is_error (index req).2 = false
  /\ index req = index {| meth := GET; file_part := None |}.
Proof. intros req. by repeat split. Qed.

(** ** Header detection *)

Section header_detection.
Implicit Types (file junk body : list (list string)) (hdr : list string).

Lemma has_required_covers (df : DataFrame) hdr :
  columns df = header_names hdr ->
  has_required (normalize_columns df) = bool_decide (covers hdr).
Proof. intros Hc. unfold has_required, normalize_columns, covers. simpl. by rewrite Hc. Qed.

(** The labels of a frame read at offset [h] come from line [h] of the
    lines that are not blank. *)
Lemma read_csv_header h file (df : DataFrame) :
  read_csv h file = Ok df ->
  exists hdr, filter (fun l : list string => l <> []) file !! h = Some hdr /\ columns df = header_names hdr.
Proof.
  unfold read_csv. destruct (drop h (filter (fun l : list string => l <> []) file)) as [|hdr data] eqn:Hd.
  - by destruct (bool_decide _).
  - destruct (forallb _ _); [|done]. intros [= <-]. exists hdr. split; [|done].
    rewrite <- (Nat.add_0_r h), <- lookup_drop. by rewrite Hd.
Qed.



Lemma load_csv_from_pass h hs file :
  (forall df, read_csv h file = Ok df -> has_required (normalize_columns df) = false) ->
  load_csv_from (h :: hs) file
  = (h :: (load_csv_from hs file).1, (load_csv_from hs file).2).
Proof.
  intros Hrej. cbn [load_csv_from].
  destruct (read_csv h file) as [df|e]; cbn [bind].
  - rewrite (Hrej df eq_refl). by destruct (load_csv_from hs file).
  - by destruct (load_csv_from hs file).
Qed.

Lemma load_csv_from_accept h hs file (df : DataFrame) :
  read_csv h file = Ok df -> has_required (normalize_columns df) = true ->
  load_csv_from (h :: hs) file = ([h], Some (normalize_columns df)).
Proof. intros Hread Hreq. cbn [load_csv_from]. rewrite Hread. cbn [bind]. by rewrite Hreq. Qed.



End header_detection.

(** No header is renamed to [Is_Denied]: the flag column is always new. *)
Lemma drop_chars_head (class : ascii -> bool) (s : string) (c : ascii) (rest : string) :
  Text.drop_chars class s = String c rest -> class c = false.
Proof.
  induction s as [|a s IH]; [done|]. simpl.
  destruct (class a) eqn:Ha; [done|]. by intros [= <- _].
Qed.

Lemma normalize_name_not_flag (raw : string) : normalize_name raw <> "Is_Denied".
Proof.
  unfold normalize_name. destruct (col_map !! clean_header raw) as [v|] eqn:Hv; simpl.
  - assert (Hall : map_Forall (fun _ v => v <> "Is_Denied") col_map) by compute_done.
    by apply (Hall _ _ Hv).
  - intros Hk. by apply drop_chars_head in Hk.
Qed.

(** A frame returned by [load_csv] has the required columns and no
    [Is_Denied] column. *)
Lemma load_csv_accepted (file : list (list string)) (tried : list nat) (df : DataFrame) :
  load_csv file = (tried, Some df) ->
  has_required df = true /\ label_count "Is_Denied" (columns df) = 0%nat.
Proof.
  assert (Hflag : forall df0, label_count "Is_Denied" (columns (normalize_columns df0)) = 0%nat).
  { intros df0. unfold normalize_columns. cbn [columns].
    rewrite normalize_header_row_names. unfold label_count.
    apply length_zero_iff_nil, filter_all_not. intros c.
    intros (raw & -> & _)%list_elem_of_fmap. apply normalize_name_not_flag. }
  unfold load_csv. cbn [load_csv_from].
  repeat (match goal with
          | |- context [bind (read_csv ?h file) _] =>
              destruct (read_csv h file) as [?df|?e]; cbn [bind]
          | |- context [has_required (normalize_columns ?d)] =>
              destruct (has_required (normalize_columns d)) eqn:?
          end);
    intros [= <- <-] || (intros [=]); auto.
Qed.




(** ** More on header detection *)

Lemma offset_rejected_or_accepted (h : nat) (file : list (list string)) :
  offset_rejected h file
  \/ exists df0, read_csv h file = Ok df0 /\ has_required (normalize_columns df0) = true.
Proof.
  unfold offset_rejected. destruct (read_csv h file) as [df0|e]; [|left; by intros].
  destruct (has_required (normalize_columns df0)) eqn:Hreq.
  - right. by exists df0.
  - left. by intros ? [= <-].
Qed.

Lemma load_csv_tried (file : list (list string)) :
  exists h, (h <= 2)%nat /\ (load_csv file).1 = seq 0 (S h).
Proof.
  unfold load_csv.
  destruct (offset_rejected_or_accepted 0 file) as [R0|(d0 & E0 & A0)].
  2:{ exists 0%nat. rewrite (load_csv_from_accept _ _ _ d0 E0 A0). split; [lia|done]. }
  rewrite (load_csv_from_pass _ _ _ R0).
  destruct (offset_rejected_or_accepted 1 file) as [R1|(d1 & E1 & A1)].
  2:{ exists 1%nat. rewrite (load_csv_from_accept _ _ _ d1 E1 A1). split; [lia|done]. }
  rewrite (load_csv_from_pass _ _ _ R1).
  exists 2%nat. split; [lia|].
  destruct (offset_rejected_or_accepted 2 file) as [R2|(d2 & E2 & A2)].
  - by rewrite (load_csv_from_pass _ _ _ R2).
  - by rewrite (load_csv_from_accept _ _ _ d2 E2 A2).
Qed.

(** X1.  [load_csv] is first-fit over the offsets 0, 1, 2: it parses at the
    offsets up to the one it accepts and no further, every earlier offset
    was rejected, and the table is the normalized frame read at the accepted
    offset; it gives up only after all three offsets were rejected. *)
Theorem load_csv_first_fit (file : list (list string)) :
  exists h, (h <= 2)%nat
    /\ (load_csv file).1 = seq 0 (S h)
    /\ (forall h', (h' < h)%nat -> offset_rejected h' file)
    /\ match (load_csv file).2 with
       | Some df => exists df0, read_csv h file = Ok df0
                      /\ df = normalize_columns df0 /\ has_required df = true
       | None => h = 2%nat /\ offset_rejected 2 file
       end.
Proof.
  unfold load_csv.
  destruct (offset_rejected_or_accepted 0 file) as [R0|(d0 & E0 & A0)].
  2:{ exists 0%nat. rewrite (load_csv_from_accept _ _ _ d0 E0 A0). cbn [fst snd].
      split; [lia|]. split; [done|]. split; [intros; lia|by exists d0]. }
  rewrite (load_csv_from_pass _ _ _ R0).
  destruct (offset_rejected_or_accepted 1 file) as [R1|(d1 & E1 & A1)].
  2:{ exists 1%nat. rewrite (load_csv_from_accept _ _ _ d1 E1 A1). cbn [fst snd].
      split; [lia|]. split; [done|]. split; [|by exists d1].
      intros [|h'] ?; [done|lia]. }
  rewrite (load_csv_from_pass _ _ _ R1).
  exists 2%nat. split; [lia|].
  assert (Hlt : forall h', (h' < 2)%nat -> offset_rejected h' file).
  { intros [|[|h']] ?; [done|done|lia]. }
  destruct (offset_rejected_or_accepted 2 file) as [R2|(d2 & E2 & A2)].
  - rewrite (load_csv_from_pass _ _ _ R2). cbn [load_csv_from fst snd]. done.
  - rewrite (load_csv_from_accept _ _ _ d2 E2 A2). cbn [fst snd].
    split; [done|]. split; [done|]. by exists d2.
Qed.

(** X2.  A header that is not among the first three lines that are not blank is
    not found: when none of those lines yields the required columns,
    [load_csv] parses at all three offsets and returns nothing.  This
    covers the empty file. *)
Theorem load_csv_header_too_deep (file : list (list string))
    (Hnone : Forall (fun l => ~ covers l) (take 3 (filter (fun l => l <> []) file))) :
  load_csv file = ([0; 1; 2]%nat, None).
Proof.
  assert (Hrej : forall h, (h < 3)%nat -> offset_rejected h file).
  { intros h Hh df0 Hread.
    apply read_csv_header in Hread as (hdr & Hline & Hcols).
    rewrite (has_required_covers df0 hdr Hcols). apply bool_decide_eq_false_2.
    rewrite Forall_forall in Hnone. apply Hnone.
    apply list_elem_of_lookup. exists h. by rewrite lookup_take_lt. }
  unfold load_csv.
  rewrite !load_csv_from_pass by (apply Hrej; lia). done.
Qed.

Lemma load_csv_header_too_deep_witness :
  load_csv [ ["Report"]; ["Exported on Monday"]; ["Page 1"];
             ["CPT_Code"; "Insurance_Company"; "Physician_Name";
              "Payment_Amount"; "Balance"; "Denial_Reason"];
             ["99213"; "Aetna"; "Dr A"; "100"; "0"; ""] ]
  = ([0; 1; 2]%nat, None)
  /\ load_csv [] = ([0; 1; 2]%nat, None).
Proof.
  split; apply load_csv_header_too_deep.
  - repeat (apply Forall_cons_2; [compute_done|]). apply Forall_nil_2.
  - apply Forall_nil_2.
Defined.

Lemma load_csv_from_ext (hs : list nat) (f1 f2 : list (list string)) :
  (forall h, read_csv h f1 = read_csv h f2) ->
  load_csv_from hs f1 = load_csv_from hs f2.
Proof.
  intros Hext. induction hs as [|h hs IH]; [done|].
  cbn [load_csv_from]. by rewrite Hext, IH.
Qed.

(** X3.  Blank lines do not count: with a blank line added anywhere, before the
    header or between records, [load_csv] tries the same offsets and
    returns the same table. *)
Theorem load_csv_ignores_blank_lines (before after : list (list string)) :
  load_csv (before ++ [] :: after) = load_csv (before ++ after).
Proof.
  apply load_csv_from_ext. intros h. unfold read_csv.
  by rewrite !filter_app, filter_cons_False by (by intros ?).
Qed.

(** ** More on the request handler *)

(** X4.  The handler answers with status 400 in exactly three cases, all of a
    POST: the form has no file part, the file name is empty, or the name
    ends in [.csv] and header detection fails. *)
Theorem index_bad_request (req : request) :
  (exists msg, (index req).2 = Status400 msg) <->
  meth req = POST
  /\ (file_part req = None
      \/ exists file, file_part req = Some file
           /\ (filename file = ""
               \/ (Text.endswith (filename file) ".csv" = true
                   /\ (load_csv (stream file)).2 = None))).
Proof.
  destruct req as [[] [file|]]; unfold index; cbn [meth file_part].
  - split; [by intros [? ?]|by intros [? _]].
  - split; [by intros [? ?]|by intros [? _]].
  - case_bool_decide as Hname; cbn [negb andb].
    + split; [|by eexists]. intros _. split; [done|]. right. exists file. auto.
    + destruct (Text.endswith (filename file) ".csv") eqn:Hext.
      * destruct (load_csv (stream file)) as [tried [df|]] eqn:Hload; cbn [fst snd].
        -- split.
           ++ intros [msg Hmsg]. by destruct (analyse df).
           ++ intros [_ [?|(f & [= <-] & [?|[_ Hn]])]]; [done|done|].
              by rewrite Hload in Hn.
        -- split; [|by eexists]. intros _. split; [done|]. right. exists file.
           split; [done|]. right. by rewrite Hload.
      * split; [by intros [? ?]|].
        intros [_ [?|(f & [= <-] & [?|[He _]])]]; [done|done|congruence].
  - split; [|by eexists]. intros _. split; [done|]. by left.
Qed.

(** X5.  The handler parses the upload only for a POST whose file name ends in
    [.csv]; the offsets it then parses at are those of [load_csv], a
    prefix of 0, 1, 2 that is never empty. *)
Theorem index_parses_only_csv_uploads (req : request) :
  ((index req).1 <> [] <->
   meth req = POST
   /\ exists file, file_part req = Some file
        /\ filename file <> "" /\ Text.endswith (filename file) ".csv" = true)
  /\ (forall file, file_part req = Some file -> (index req).1 <> [] ->
        (index req).1 = (load_csv (stream file)).1
        /\ exists h, (h <= 2)%nat /\ (index req).1 = seq 0 (S h)).
Proof.
  assert (Htried : forall file : list (list string), (load_csv file).1 <> []).
  { intros file. destruct (load_csv_tried file) as (h & _ & ->). done. }
  assert (Hidx : forall file, filename file <> "" ->
            Text.endswith (filename file) ".csv" = true ->
            (index {| meth := POST; file_part := Some file |}).1
            = (load_csv (stream file)).1).
  { intros file Hname Hext. unfold index. cbn [meth file_part].
    rewrite bool_decide_eq_false_2 by done. rewrite Hext. cbn [negb andb].
    destruct (load_csv (stream file)) as [tried [df|]]; done. }
  destruct req as [[] [file|]].
  - split; [split; [done|by intros [? _]]|done].
  - split; [split; [done|by intros [? _]]|done].
  - destruct (decide (filename file = "")) as [Hname|Hname].
    { assert ((index {| meth := POST; file_part := Some file |}).1 = []) as Hnil.
      { unfold index. cbn [meth file_part]. by rewrite bool_decide_eq_true_2. }
      rewrite Hnil. split; [|done].
      split; [done|]. by intros [_ (f & [= <-] & ? & _)]. }
    destruct (Text.endswith (filename file) ".csv") eqn:Hext.
    + rewrite (Hidx file Hname Hext). split.
      * split; [|intros; apply Htried]. intros _. split; [done|]. by exists file.
      * intros f [= <-] _. split; [done|].
        destruct (load_csv_tried (stream file)) as (h & Hh & Htr). by exists h.
    + assert ((index {| meth := POST; file_part := Some file |}).1 = []) as Hnil.
      { unfold index. cbn [meth file_part].
        rewrite bool_decide_eq_false_2 by done. by rewrite Hext. }
      rewrite Hnil. split; [|done].
      split; [done|]. intros [_ (f & [= <-] & _ & ?)]. congruence.
  - split; [split; [done|]|done]. by intros [_ (f & ? & _)].
Qed.


(** ** More on the column normalizer *)

Lemma lower_alnum_fixed (c : ascii) :
  not_lower_alnum c = false -> Text.lower_char c = c.
Proof. revert c. by intros [[] [] [] [] [] [] [] []]; vm_compute. Qed.

Lemma drop_lower_fixed (s : string) :
  Text.drop_chars not_lower_alnum (Text.lower (Text.drop_chars not_lower_alnum s))
  = Text.drop_chars not_lower_alnum s.
Proof.
  induction s as [|c s IH]; [done|]. cbn [Text.drop_chars].
  destruct (not_lower_alnum c) eqn:Hc; [done|].
  cbn [Text.lower Text.drop_chars]. by rewrite (lower_alnum_fixed c Hc), Hc, IH.
Qed.

Lemma clean_header_idempotent (s : string) :
  clean_header (clean_header s) = clean_header s.
Proof. rewrite !clean_header_alt. apply drop_lower_fixed. Qed.

Lemma normalize_name_idempotent (raw : string) :
  normalize_name (normalize_name raw) = normalize_name raw.
Proof.
  unfold normalize_name at 2 3.
  destruct (col_map !! clean_header raw) as [v|] eqn:Hv; cbn [default].
  - assert (Hall : map_Forall (fun _ v => normalize_name v = v) col_map) by compute_done.
    by apply (Hall _ _ Hv).
  - unfold normalize_name. by rewrite clean_header_idempotent, Hv.
Qed.

(** X7.  Normalizing the columns of a frame that is already normalized changes
    nothing: an export with canonical headers is read back under the same
    names. *)
Theorem normalize_columns_idempotent (df : DataFrame) :
  normalize_columns (normalize_columns df) = normalize_columns df.
Proof.
  unfold normalize_columns. cbn [columns rows]. f_equal.
  rewrite !normalize_header_row_names, <- list_fmap_compose.
  apply Forall_fmap_ext_1, Forall_forall. intros raw _.
  apply normalize_name_idempotent.
Qed.

(** A header is given a required column name exactly when its cleaned form
    is one of the keys of the synonym table; any other header keeps its
    cleaned form, which is never a required name. *)
Lemma normalize_name_required (raw : string) :
  (normalize_name raw ∈ required_cols <-> is_Some (col_map !! clean_header raw))
  /\ (col_map !! clean_header raw = None -> normalize_name raw = clean_header raw).
Proof.
  unfold normalize_name.
  destruct (col_map !! clean_header raw) as [v|] eqn:Hv; cbn [default].
  - split; [|done]. split; [by eexists|]. intros _.
    assert (Hall : map_Forall (fun _ v => v ∈ required_cols) col_map) by compute_done.
    by apply (Hall _ _ Hv).
  - split; [|done]. split; [|by intros [? ?]]. intros Hin. exfalso.
    unfold required_cols in Hin.
    rewrite !elem_of_union, !elem_of_singleton in Hin.
    unfold clean_header in Hin.
    destruct Hin as [[[[[Hk|Hk]|Hk]|Hk]|Hk]|Hk];
      by apply drop_chars_head in Hk.
Qed.

(** ** More on the cleaning lines *)

Lemma columns_setitem_present (df : DataFrame) (name : string) (s : list cell) :
  label_count name (columns df) <> 0%nat -> columns (setitem df name s) = columns df.
Proof.
  intros Hc. unfold setitem.
  destruct (label_index name (columns df)) as [i|] eqn:Hi; [done|].
  by apply label_index_None in Hi.
Qed.

Lemma columns_setitem_absent (df : DataFrame) (name : string) (s : list cell) :
  label_count name (columns df) = 0%nat ->
  columns (setitem df name s) = (columns df ++ [name])%list.
Proof. intros Hc. unfold setitem. apply label_index_None in Hc. by rewrite Hc. Qed.

(** X9.  The cleaning lines touch three columns only: the frame keeps its rows,
    every column other than Payment_Amount, Balance and Is_Denied keeps its
    label and its cells, and on a frame without an Is_Denied column the flag
    is appended as the last column, true exactly where the denial reason is
    a text that is not blank. *)
Theorem clean_keeps_other_columns (df df' : DataFrame)
    (Hclean : clean df = Ok df') :
  length (rows df') = length (rows df)
  /\ (forall name,
        name <> "Payment_Amount" -> name <> "Balance" -> name <> "Is_Denied" ->
        column_of df' name = column_of df name
        /\ label_count name (columns df') = label_count name (columns df))
  /\ (label_count "Is_Denied" (columns df) = 0%nat ->
        columns df' = (columns df ++ ["Is_Denied"])%list
        /\ column_of df' "Is_Denied"
           = (fun c => Bool (is_denied c)) <$> column_of df "Denial_Reason").
Proof.
  apply clean_Ok in Hclean as (Hpay & Hbal & _ & _ & ->).
  split; [apply rows_cleaned|]. split.
  - intros name H1 H2 H3. split; [by apply column_of_cleaned|by apply label_count_cleaned].
  - intros Hflag. unfold cleaned.
    set (df1 := setitem df "Payment_Amount" _).
    set (df2 := setitem df1 "Balance" _).
    set (flags := (fun c => Bool (is_denied c)) <$> column_of df "Denial_Reason").
    assert (Hc1 : columns df1 = columns df).
    { apply columns_setitem_present. unfold one_column in Hpay. lia. }
    assert (Hc2 : columns df2 = columns df).
    { unfold df2. rewrite columns_setitem_present, Hc1; [done|].
      rewrite Hc1. unfold one_column in Hbal. lia. }
    split.
    + rewrite columns_setitem_absent, Hc2; [done|]. by rewrite Hc2.
    + apply column_of_setitem_same; [rewrite Hc2; lia|].
      unfold flags, df2, df1. solve_len.
Qed.

Lemma clean_keeps_other_columns_witness :
  exists df', clean sample_frame = Ok df'
    /\ length (rows df') = 6%nat
    /\ column_of df' "Is_Denied"
       = [Bool false; Bool true; Bool false; Bool false; Bool true; Bool true].
Proof.
  exists (cleaned sample_frame).
  assert (Hclean : clean sample_frame = Ok (cleaned sample_frame)) by compute_done.
  pose proof (clean_keeps_other_columns sample_frame _ Hclean) as (Hrows & _ & Hflag).
  split; [exact Hclean|]. split; [rewrite Hrows; compute_done|].
  destruct (Hflag ltac:(compute_done)) as [_ ->]. compute_done.
Defined.

(** X10.  A cleaned currency column holds no missing value and no text, and
    cleaning it again changes nothing. *)
Theorem clean_currency_numbers (s : list cell) :
  Forall (fun c => c <> NaN /\ forall t, c <> Str t) (clean_currency s)
  /\ length (clean_currency s) = length s
  /\ clean_currency (clean_currency s) = clean_currency s.
Proof.
  rewrite !clean_currency_cells.
  split; [|split; [apply length_clean_cells|]].
  - unfold clean_cells. apply Forall_fmap, Forall_forall. intros c _.
    destruct c as [|t|q|b]; simpl; try done.
    + by destruct (parse_number _).
    + by destruct (forallb is_bool s).
  - unfold clean_cells at 2 3.
    destruct (forallb is_bool s) eqn:Hall.
    + assert (Hid : clean_cell true <$> s = s).
      { rewrite <- (list_fmap_id s) at 2. apply Forall_fmap_ext_1, Forall_forall.
        intros c Hc. rewrite forallb_forall in Hall.
        apply list_elem_of_In, Hall in Hc. by destruct c. }
      rewrite Hid. unfold clean_cells. by rewrite Hall.
    + unfold clean_cells. rewrite <- list_fmap_compose.
      apply Forall_fmap_ext_1, Forall_forall. intros c _. unfold compose.
      destruct c as [|t|q|b]; simpl; try done.
      by destruct (parse_number _).
Qed.








Lemma has_required_count (df : DataFrame) (name : string) :
  has_required df = true -> name ∈ required_cols ->
  label_count name (columns df) <> 0%nat.
Proof.
  unfold has_required. intros Hreq%bool_decide_eq_true_1 Hname Hc.
  apply Hreq, elem_of_list_to_set in Hname.
  apply label_index_None in Hc. unfold label_index in Hc.
  apply fmap_None, list_find_None in Hc. rewrite Forall_forall in Hc.
  by apply (Hc name).
Qed.

(** X12.  On a table accepted by header detection the cleaning lines never miss
    a column.  They return the cleaned frame, or raise [TypeError] when two
    columns carry the label of a currency column, or raise [AttributeError]
    when two columns carry the label Denial_Reason or a denial reason is a
    number or a boolean. *)
Theorem clean_on_accepted (df : DataFrame)
    (Hreq : has_required df = true) :
  clean df = Ok (cleaned df)
  \/ (clean df = Raise TypeError
      /\ ~ (one_column df "Payment_Amount" /\ one_column df "Balance"))
  \/ (clean df = Raise AttributeError
      /\ (~ one_column df "Denial_Reason"
          \/ Exists (fun c => text_or_missing c = false) (column_of df "Denial_Reason"))).
Proof.
  pose proof (has_required_count df "Payment_Amount" Hreq ltac:(compute_done)) as Npay.
  pose proof (has_required_count df "Balance" Hreq ltac:(compute_done)) as Nbal.
  pose proof (has_required_count df "Denial_Reason" Hreq ltac:(compute_done)) as Nreason.
  destruct (decide (one_column df "Payment_Amount")) as [Hpay|Hpay].
  2:{ right; left. split; [|by intros [? _]]. unfold clean.
      rewrite column_eq, decide_False by done. cbn [bind].
      by rewrite decide_False. }
  destruct (decide (one_column df "Balance")) as [Hbal|Hbal].
  2:{ right; left. split; [|by intros [_ ?]]. unfold clean.
      rewrite (column_one _ _ _ Hpay). cbn [bind].
      rewrite column_eq, decide_False by (by rewrite one_column_setitem).
      cbn [bind]. rewrite decide_False; [done|]. by rewrite label_count_setitem. }
  destruct (decide (one_column df "Denial_Reason")) as [Hreason|Hreason].
  2:{ right; right. split; [|by left]. unfold clean.
      rewrite (column_one _ _ _ Hpay). cbn [bind].
      rewrite column_one by (by apply one_column_setitem). cbn [bind].
      rewrite column_eq, decide_False by (by rewrite !one_column_setitem).
      cbn [bind]. rewrite decide_False; [done|]. by rewrite !label_count_setitem. }
  destruct (decide (Forall (fun c => text_or_missing c = true)
                      (column_of df "Denial_Reason"))) as [Htext|Htext].
  { left. by apply clean_Ok. }
  right; right. split.
  - unfold clean. rewrite (column_one _ _ _ Hpay). cbn [bind].
    rewrite column_one by (by apply one_column_setitem). cbn [bind].
    rewrite column_one by (by rewrite !one_column_setitem). cbn [bind].
    rewrite apply_strip_nonempty.
    rewrite !column_of_setitem_other by first [done | rewrite ?clean_currency_cells; solve_len].
    destruct (forallb text_or_missing (column_of df "Denial_Reason")) eqn:Hall; [|done].
    exfalso. apply Htext, Forall_forall. intros c Hc.
    rewrite forallb_forall in Hall. by apply Hall, list_elem_of_In.
  - right. apply not_Forall_Exists in Htext; [|intros c; apply _].
    eapply Exists_impl; [exact Htext|]. intros c Hc. unfold compose in Hc.
    by destruct (text_or_missing c).
Qed.

Lemma clean_on_accepted_witness :
  has_required (frame_of coded_csv) = true
  /\ (clean (frame_of coded_csv) = Ok (cleaned (frame_of coded_csv))
      \/ (clean (frame_of coded_csv) = Raise TypeError
          /\ ~ (one_column (frame_of coded_csv) "Payment_Amount"
                /\ one_column (frame_of coded_csv) "Balance"))
      \/ (clean (frame_of coded_csv) = Raise AttributeError
          /\ (~ one_column (frame_of coded_csv) "Denial_Reason"
              \/ Exists (fun c => text_or_missing c = false)
                   (column_of (frame_of coded_csv) "Denial_Reason")))).
Proof.
  split; [compute_done|]. apply clean_on_accepted. compute_done.
Defined.

(** ** More on the summary tables *)

Lemma sort_desc_descending {A} (count : A -> nat) (t : list A) :
  descending count (sort_desc count t).
Proof.
  unfold descending, sort_desc. intros l1 l2 x y Heq Hx Hy.
  set (R := fun a b : A => Is_true (count b <=? count a)%nat).
  assert (Htrans : Transitive R).
  { intros u v w Huv Hvw. unfold R in *.
    apply Is_true_true, Nat.leb_le in Huv. apply Is_true_true, Nat.leb_le in Hvw.
    apply Is_true_true, Nat.leb_le. lia. }
  assert (Htotal : Total R).
  { intros u v. unfold R. destruct (decide (count v <= count u)%nat).
    - left. by apply Is_true_true, Nat.leb_le.
    - right. apply Is_true_true, Nat.leb_le. lia. }
  pose proof (StronglySorted_merge_sort R t) as Hsorted.
  fold R in Heq. rewrite Heq in Hsorted.
  pose proof (StronglySorted_app_1_elem_of R l1 l2 x y Hsorted Hx Hy) as Hxy.
  by apply Is_true_true, Nat.leb_le in Hxy.
Qed.

Lemma sort_desc_Permutation {A} (count : A -> nat) (t : list A) :
  sort_desc count t ≡ₚ t.
Proof. apply merge_sort_Permutation. Qed.

(** X13.  When [analyse] returns, the payer and provider tables are listed by
    decreasing number of denials, and the page shows the CPT analysis by
    decreasing Denied_Claims and the root causes by decreasing Count, each
    with the same rows as the table computed. *)
Theorem tables_listed_by_decreasing_count (df : DataFrame) (a : analysis)
    (Hrun : analyse df = Ok a) :
  descending snd (payer_denials a)
  /\ descending snd (provider_denials a)
  /\ descending Denied_Claims (cpt_analysis_html (render a))
  /\ cpt_analysis_html (render a) ≡ₚ cpt_analysis a
  /\ descending (fun r => r.1.2) (root_causes_html (render a))
  /\ root_causes_html (render a) ≡ₚ root_causes_df a.
Proof.
  apply analyse_Ok in Hrun as [_ ->]. unfold analysis_of, render.
  cbn [payer_denials provider_denials cpt_analysis_html root_causes_html
       cpt_analysis root_causes_df].
  repeat split; first [apply sort_desc_descending | apply sort_desc_Permutation].
Qed.

Lemma tables_listed_by_decreasing_count_witness :
  exists a, analyse sample_frame = Ok a
    /\ descending snd (payer_denials a)
    /\ payer_denials a = [(Str "Aetna", 2%nat)].
Proof.
  exists (analysis_of sample_frame).
  assert (Hrun : analyse sample_frame = Ok (analysis_of sample_frame)) by compute_done.
  pose proof (tables_listed_by_decreasing_count sample_frame _ Hrun) as (Hp & _).
  split; [exact Hrun|]. split; [exact Hp|compute_done].
Defined.

Lemma top_rows {A} (count : A -> nat) (t : list A) (n : nat) :
  (length (head n (sort_desc count t)) <= n)%nat
  /\ (t <> [] -> (0 < n)%nat -> head n (sort_desc count t) <> [])
  /\ (forall x y, x ∈ head n (sort_desc count t) -> y ∈ drop n (sort_desc count t) ->
        (count y <= count x)%nat).
Proof.
  unfold head. split; [rewrite length_take; lia|]. split.
  - intros Hne Hn Hnil. apply Hne.
    apply Permutation_nil_r. rewrite <- (sort_desc_Permutation count t).
    destruct (sort_desc count t); [done|]. destruct n; [lia|done].
  - intros x y Hx Hy.
    apply (sort_desc_descending count t (take n (sort_desc count t))
             (drop n (sort_desc count t))); [|done|done].
    by rewrite take_drop.
Qed.

Lemma sort_desc_idempotent_rows {A} (count : A -> nat) (t : list A) :
  sort_desc count t = [] <-> t = [].
Proof.
  split; [|by intros ->]. intros Hnil. apply Permutation_nil_r.
  by rewrite <- (sort_desc_Permutation count t), Hnil.
Qed.

(** X14.  When [analyse] returns, a chart is drawn exactly for a table that has
    rows, and plots at most ten of them, the first ten of the table listed
    by decreasing denials: no row left out has more denials than a row
    plotted. *)
Theorem charts_show_top_ten (df : DataFrame) (a : analysis)
    (Hrun : analyse df = Ok a) :
  (payer_chart a = None <-> payer_denials a = [])
  /\ (provider_chart a = None <-> provider_denials a = [])
  /\ (cpt_chart a = None <-> cpt_analysis a = [])
  /\ (forall chart, payer_chart a = Some chart ->
        chart = take 10 (payer_denials a) /\ (1 <= length chart <= 10)%nat
        /\ forall x y, x ∈ chart -> y ∈ drop 10 (payer_denials a) -> (y.2 <= x.2)%nat)
  /\ (forall chart, provider_chart a = Some chart ->
        chart = take 10 (provider_denials a) /\ (1 <= length chart <= 10)%nat
        /\ forall x y, x ∈ chart -> y ∈ drop 10 (provider_denials a) -> (y.2 <= x.2)%nat)
  /\ (forall chart, cpt_chart a = Some chart ->
        chart = take 10 (cpt_analysis_html (render a)) /\ (1 <= length chart <= 10)%nat
        /\ forall x y, x ∈ chart -> y ∈ drop 10 (cpt_analysis_html (render a)) ->
             (Denied_Claims y <= Denied_Claims x)%nat).
Proof.
  apply analyse_Ok in Hrun as [_ ->]. unfold analysis_of, render.
  cbn [payer_denials provider_denials cpt_analysis payer_chart provider_chart
       cpt_chart cpt_analysis_html].
  set (payers := size_by_key (denied_column df "Insurance_Company")).
  set (providers := size_by_key (denied_column df "Physician_Name")).
  set (cpt := cpt_row_of <$> merge_left _ _).
  assert (Hchart : forall {A} (count : A -> nat) (t : list A) chart,
            (if bool_decide (sort_desc count t = []) then None
             else Some (head 10 (sort_desc count t))) = Some chart ->
            chart = take 10 (sort_desc count t) /\ (1 <= length chart <= 10)%nat
            /\ forall x y, x ∈ chart -> y ∈ drop 10 (sort_desc count t) ->
                 (count y <= count x)%nat).
  { intros A count t chart.
    destruct (top_rows count t 10) as (Hlen & Hne & Htop).
    assert (Htake : head 10 (sort_desc count t) = take 10 (sort_desc count t)) by done.
    set (top := head 10 (sort_desc count t)) in *.
    case_bool_decide as Hnil; [done|]. intros Heq.
    assert (chart = top) as -> by congruence.
    split; [exact Htake|]. split; [|exact Htop]. split; [|exact Hlen].
    assert (top <> []) as Hne'.
    { apply Hne; [|lia]. intros ->. by apply Hnil. }
    destruct top as [|r rs]; [by destruct Hne'|]. cbn [length]. lia. }
  split; [by case_bool_decide|]. split; [by case_bool_decide|].
  split; [by case_bool_decide|].
  split; [apply Hchart|]. split; [apply Hchart|].
  intros chart. case_bool_decide as Hnil; [done|]. intros Heq.
  apply (Hchart _ Denied_Claims cpt chart).
  rewrite bool_decide_eq_false_2; [done|]. by rewrite sort_desc_idempotent_rows.
Qed.

Lemma charts_show_top_ten_witness :
  exists a, analyse sample_frame = Ok a
    /\ payer_chart a = Some (take 10 (payer_denials a)).
Proof.
  exists (analysis_of sample_frame).
  assert (Hrun : analyse sample_frame = Ok (analysis_of sample_frame)) by compute_done.
  pose proof (charts_show_top_ten sample_frame _ Hrun) as (_ & _ & _ & Hp & _).
  split; [exact Hrun|].
  destruct (payer_chart (analysis_of sample_frame)) as [chart|] eqn:Hc; [|by vm_compute in Hc].
  by destruct (Hp chart eq_refl) as [-> _].
Defined.

Lemma length_dropna_fmap {A} (f : A -> cell) (xs : list A) :
  length (dropna (f <$> xs)) = length (filter (fun x => f x <> NaN) xs).
Proof.
  unfold dropna. induction xs as [|x xs IH]; [done|].
  rewrite fmap_cons, !filter_cons.
  destruct (decide (f x = NaN)) as [Hn|Hn].
  - rewrite Hn, decide_False by done. rewrite decide_False by (by intros ?). apply IH.
  - rewrite decide_True by (by destruct (f x)). rewrite decide_True by done.
    simpl. by rewrite IH.
Qed.

(** X15.  When [analyse] returns, the CPT analysis has one row per CPT code, and
    its Total_Claims add up to the number of rows that have a CPT code: a
    row without one is counted nowhere. *)
Theorem cpt_totals_cover_rows (df : DataFrame) (a : analysis)
    (Hrun : analyse df = Ok a) :
  NoDup (CPT_Code <$> cpt_analysis a)
  /\ sum_list (Total_Claims <$> cpt_analysis a)
     = length (filter (fun r => cell_of df "CPT_Code" r <> NaN) (rows df))
  /\ (sum_list (Denied_Claims <$> cpt_analysis a)
      <= sum_list (Total_Claims <$> cpt_analysis a))%nat.
Proof.
  apply analyse_Ok in Hrun as [_ ->].
  assert (Hsum : sum_list (Total_Claims <$> cpt_analysis (analysis_of df))
                 = length (dropna (column_of df "CPT_Code"))).
  { rewrite cpt_analysis_rows, <- list_fmap_compose.
    change (Total_Claims ∘ cpt_row_for df)
      with (fun k => total_claims df "CPT_Code" k).
    erewrite (Forall_fmap_ext_1 _ (fun k => count_eq k (column_of df "CPT_Code")));
      [|apply Forall_forall; intros k _; symmetry; apply total_claims_count].
    rewrite sum_counts by apply NoDup_group_keys.
    unfold dropna. f_equal. apply filter_ext_in. intros c Hc.
    rewrite elem_of_group_keys. destruct c; simpl; intuition congruence. }
  split; [|split].
  - rewrite cpt_analysis_rows, <- list_fmap_compose.
    change (CPT_Code ∘ cpt_row_for df) with (@id cell).
    rewrite list_fmap_id. apply NoDup_group_keys.
  - rewrite Hsum. unfold column_of. apply length_dropna_fmap.
  - rewrite cpt_analysis_rows, <- !list_fmap_compose.
    induction (group_keys (column_of df "CPT_Code")) as [|k ks IH]; [done|].
    rewrite !fmap_cons. simpl. pose proof (denied_le_total df "CPT_Code" k). lia.
Qed.

Lemma cpt_totals_cover_rows_witness :
  exists a, analyse sample_frame = Ok a
    /\ sum_list (Total_Claims <$> cpt_analysis a) = 6%nat.
Proof.
  exists (analysis_of sample_frame).
  assert (Hrun : analyse sample_frame = Ok (analysis_of sample_frame)) by compute_done.
  pose proof (cpt_totals_cover_rows sample_frame _ Hrun) as (_ & Hsum & _).
  split; [exact Hrun|]. rewrite Hsum. compute_done.
Defined.

Lemma length_denied_reasons (df : DataFrame) :
  length (denied_reasons df) = denied_total df.
Proof.
  unfold denied_reasons, denied_total, row_denied.
  induction (rows df) as [|r rs IH]; [done|].
  rewrite filter_cons. cbn [omap list_omap].
  destruct (cell_of df "Denial_Reason" r) as [|t|q|b]; try (rewrite decide_False by done; exact IH).
  destruct (is_denied (Str t)) eqn:Hd.
  - rewrite decide_True by done. cbn [length]. by f_equal.
  - rewrite decide_False by done. exact IH.
Qed.

(** X16.  When [analyse] returns, the root-cause table lists the categories of
    the recommendations table, in the same order; every category has its
    explanation, and its count is at most the number of denied rows. *)
Theorem root_cause_counts_bounded (df : DataFrame) (a : analysis)
    (Hrun : analyse df = Ok a) :
  (fun r => r.1.1) <$> root_causes_df a = recommendations.*1
  /\ (forall category count explanation,
        (category, count, explanation) ∈ root_causes_df a ->
        (count <= denied_total df)%nat /\ is_Some explanation).
Proof.
  apply analyse_Ok in Hrun as [_ ->]. unfold analysis_of. cbn [root_causes_df].
  split.
  - unfold root_causes. rewrite <- !list_fmap_compose. reflexivity.
  - intros category count explanation.
    intros ([n c] & [= -> -> ->] & Hin)%list_elem_of_fmap.
    unfold root_causes in Hin.
    apply list_elem_of_fmap in Hin as ([name pat] & [= -> ->] & Hpat).
    cbn [fst snd]. split.
    + unfold str_contains_sum. rewrite <- length_denied_reasons. apply length_filter.
    + assert (Hall : Forall (fun np : string * string => is_Some (reasons !! np.1))
                       root_cause_patterns) by compute_done.
      rewrite Forall_forall in Hall. by apply (Hall _ Hpat).
Qed.

Lemma root_cause_counts_bounded_witness :
  exists a, analyse sample_frame = Ok a
    /\ (fun r => r.1.1) <$> root_causes_df a = recommendations.*1.
Proof.
  exists (analysis_of sample_frame).
  assert (Hrun : analyse sample_frame = Ok (analysis_of sample_frame)) by compute_done.
  pose proof (root_cause_counts_bounded sample_frame _ Hrun) as (Hnames & _).
  split; [exact Hrun|exact Hnames].
Defined.

Lemma round_full_rate (t : nat) :
  (1 <= t)%nat ->
  round 2 (Qc_of_nat t / Qc_of_nat t * Qc_of_Z 100)%Qc = Qc_of_Z 100.
Proof.
  intros Ht.
  assert (Qc_of_nat t / Qc_of_nat t = Q2Qc 1)%Qc as ->.
  { apply Qcmult_inv_r. intros H0. apply (f_equal this) in H0.
    simpl in H0. injection H0. lia. }
  rewrite Qcmult_1_l. compute_done.
Qed.

(** X18.  When [analyse] returns on a table in which every row has a denial
    reason that is not blank, every row of the CPT analysis has as many
    denied claims as claims and a denial rate of 100. *)
Theorem all_denied_full_rate (df : DataFrame) (a : analysis) (row : cpt_row)
    (Hrun : analyse df = Ok a)
    (Hall : Forall (fun c => is_denied c = true) (column_of df "Denial_Reason"))
    (Hrow : row ∈ cpt_analysis a) :
  Denied_Claims row = Total_Claims row
  /\ Denial_Rate row = Qc_of_Z 100
  /\ denied_total df = length (rows df).
Proof.
  apply analyse_Ok in Hrun as [_ ->]. rewrite cpt_analysis_rows in Hrow.
  apply list_elem_of_fmap in Hrow as (k & -> & Hk).
  assert (Hrows : filter (fun r => row_denied df r = true) (rows df) = rows df).
  { apply filter_all. unfold column_of in Hall. by rewrite Forall_fmap in Hall. }
  assert (Heq : denied_claims df "CPT_Code" k = total_claims df "CPT_Code" k).
  { rewrite <- denied_claims_count, <- total_claims_count.
    unfold denied_column, column_of. by rewrite Hrows. }
  unfold cpt_row_for. cbn [Denied_Claims Total_Claims Denial_Rate]. rewrite Heq.
  split; [done|]. split.
  - apply round_full_rate. rewrite <- total_claims_count.
    apply count_eq_pos. by apply elem_of_group_keys in Hk as [Hk _].
  - unfold denied_total. by rewrite Hrows.
Qed.

Lemma all_denied_full_rate_witness :
  let df := frame_of
              [ ["CPT_Code"; "Insurance_Company"; "Physician_Name";
                 "Payment_Amount"; "Balance"; "Denial_Reason"];
                ["99213"; "Aetna"; "Dr A"; "100"; "0"; "CO-16 missing information"];
                ["99213"; "Cigna"; "Dr B"; "80"; "20"; "Not authorized"] ] in
  exists a row, analyse df = Ok a /\ row ∈ cpt_analysis a
    /\ Total_Claims row = 2%nat /\ Denied_Claims row = Total_Claims row
    /\ Denial_Rate row = Qc_of_Z 100.
Proof.
  intros df.
  exists (analysis_of df), (cpt_row_for df (Num (Qc_of_Z 99213))).
  assert (Hrun : analyse df = Ok (analysis_of df)) by compute_done.
  assert (Hrow : cpt_row_for df (Num (Qc_of_Z 99213)) ∈ cpt_analysis (analysis_of df))
    by compute_done.
  assert (Hall : Forall (fun c => is_denied c = true) (column_of df "Denial_Reason")).
  { repeat (apply Forall_cons_2; [compute_done|]). apply Forall_nil_2. }
  pose proof (all_denied_full_rate df _ _ Hrun Hall Hrow) as (Hd & Hr & _).
  split; [exact Hrun|]. split; [exact Hrow|]. split; [compute_done|].
  split; [exact Hd|exact Hr].
Defined.

(** X6.  The handler renders the page with the tables exactly for a POST whose
    file name ends in [.csv], whose header is found, and whose table is
    analysable; the page is then the rendering of [analysis_of] that table. *)
Theorem index_renders_tables (req : request) (p : page) :
  (index req).2 = Rendered (Some p) <->
  meth req = POST
  /\ exists file df,
       file_part req = Some file
       /\ Text.endswith (filename file) ".csv" = true
       /\ (load_csv (stream file)).2 = Some df
       /\ analysable df
       /\ p = render (analysis_of df).
Proof.
  destruct req as [[] [file|]]; unfold index; cbn [meth file_part].
  - split; [done|by intros [? _]].
  - split; [done|by intros [? _]].
  - case_bool_decide as Hname; cbn [negb andb].
    + split; [done|]. intros [_ (f & df & [= <-] & Hext & _)].
      rewrite Hname in Hext. by vm_compute in Hext.
    + destruct (Text.endswith (filename file) ".csv") eqn:Hext.
      * destruct (load_csv (stream file)) as [tried [df|]] eqn:Hload; cbn [fst snd].
        -- split.
           ++ destruct (analyse df) as [a|e] eqn:Hrun; [|done]. intros [= <-].
              apply analyse_Ok in Hrun as [Han ->].
              split; [done|]. exists file, df. by rewrite Hload.
           ++ intros [_ (f & df' & [= <-] & _ & Hdf & Han & ->)].
              rewrite Hload in Hdf. injection Hdf as <-.
              assert (analyse df = Ok (analysis_of df)) as -> by (by apply analyse_Ok).
              done.
        -- split; [done|]. intros [_ (f & df' & [= <-] & _ & Hdf & _)].
           by rewrite Hload in Hdf.
      * split; [done|]. intros [_ (f & df & [= <-] & He & _)]. congruence.
  - split; [done|]. by intros [_ (f & df & ? & _)].
Qed.


(** ** The synthetic data set *)

Lemma label_index_cons (name c : string) (cols : list string) :
  label_index name (c :: cols)
  = if decide (c = name) then Some 0%nat else S <$> label_index name cols.
Proof.
  unfold label_index. cbn [list_find]. destruct (decide (c = name)); [done|].
  destruct (list_find (fun c0 => c0 = name) cols) as [[i x]|]; done.
Qed.

(** Dropping the columns under a label keeps, in every row, the cell of
    every other label. *)
Lemma keep_where_cell (label name : string) (cols : list string) (r : list cell) :
  name <> label -> length r = length cols ->
  let keep := (fun c => negb (bool_decide (c = label))) <$> cols in
  match label_index name (keep_where keep cols) with
  | Some i => cell_at i (keep_where keep r)
  | None => NaN
  end
  = match label_index name cols with
    | Some i => cell_at i r
    | None => NaN
    end.
Proof.
  intros Hne. revert r. induction cols as [|c cols IH]; intros [|x r] Hlen; try done.
  cbn zeta in *. rewrite fmap_cons. cbn [keep_where].
  injection Hlen as Hlen. specialize (IH r Hlen).
  rewrite (label_index_cons name c cols).
  case_bool_decide as Hc; cbn [negb].
  - subst c. rewrite decide_False by done.
    destruct (label_index name cols) as [i|]; cbn [fmap option_fmap option_map] in *; done.
  - rewrite label_index_cons. destruct (decide (c = name)); [done|].
    destruct (label_index name (keep_where _ cols)) as [i|],
             (label_index name cols) as [j|];
      cbn [fmap option_fmap option_map] in *; done.
Qed.

Lemma drop_columns_cell (label name : string) (df : DataFrame) (r : list cell) :
  name <> label ->
  cell_of (drop_columns label df) name
    (keep_where ((fun c => negb (bool_decide (c = label))) <$> columns df)
       (resize (length (columns df)) NaN r))
  = cell_of df name r.
Proof.
  intros Hne. unfold cell_of, drop_columns. cbn [columns].
  rewrite (keep_where_cell label name (columns df))
    by first [done | by rewrite length_resize].
  destruct (label_index name (columns df)) as [i|] eqn:Hi; [|done].
  apply cell_at_resize. by eapply label_index_lt.
Qed.

Lemma keep_where_labels (label : string) (cols : list string) :
  keep_where ((fun c => negb (bool_decide (c = label))) <$> cols) cols
  = filter (fun c => c <> label) cols.
Proof.
  induction cols as [|c cols IH]; [done|].
  rewrite fmap_cons, filter_cons. cbn [keep_where].
  case_bool_decide as Hc; cbn [negb].
  - by rewrite decide_False by (by intros ?).
  - rewrite decide_True by done. by rewrite IH.
Qed.

(** X19.  When the script returns, with a generator that draws valid positions:
    the data set written has 3000 rows and no column [#]; its other columns
    are those of the data, in order; and every row written agrees, in every
    column, with one and the same row of the data: sampling keeps rows
    whole. *)
Theorem synthetic_rows_are_data_rows
    (draw : nat -> nat -> list nat) (file : list (list string)) (out : DataFrame)
    (Hdraw : valid_draw draw)
    (Hrun : generate_new_claims draw file = Ok out) :
  exists df, read_csv 0 (drop 2 file) = Ok df
    /\ length (rows out) = 3000%nat
    /\ columns out = filter (fun c => c <> "#") (columns df)
    /\ ("#" ∉ columns out)
    /\ (forall r, r ∈ rows out ->
          exists r0, r0 ∈ rows df
            /\ forall name, name <> "#" -> cell_of out name r = cell_of df name r0).
Proof.
  unfold generate_new_claims in Hrun. inv_bind Hrun. rename a into df.
  exists df. split; [done|].
  set (df1 := if bool_decide ("#" ∈ columns df) then drop_columns "#" df else df) in *.
  assert (Hcols : columns df1 = filter (fun c => c <> "#") (columns df)).
  { unfold df1. case_bool_decide as Hin.
    - unfold drop_columns. cbn [columns]. apply keep_where_labels.
    - symmetry. apply filter_all, Forall_forall. by intros c Hc ->. }
  assert (Hrows : forall r, r ∈ rows df1 ->
            exists r0, r0 ∈ rows df
              /\ forall name, name <> "#" -> cell_of df1 name r = cell_of df name r0).
  { intros r Hr. unfold df1 in *. case_bool_decide as Hin.
    - unfold drop_columns in Hr. cbn [rows] in Hr.
      apply list_elem_of_fmap in Hr as (r0 & -> & Hr0). exists r0. split; [done|].
      intros name Hname. by apply drop_columns_cell.
    - by exists r. }
  unfold sample in Hrun.
  destruct (bool_decide (rows df1 = []) && negb (3000 =? 0)%nat) eqn:Hempty; [done|].
  injection Hrun as <-. cbn [rows columns].
  assert (Hne : rows df1 <> []).
  { intros Hnil. by rewrite bool_decide_eq_true_2 in Hempty. }
  assert (Hsize : (0 < length (rows df1))%nat).
  { destruct (rows df1); [done|simpl; lia]. }
  destruct (Hdraw (length (rows df1)) 3000%nat Hsize) as [Hlen Hpos].
  split; [by rewrite length_fmap|]. split; [done|]. split.
  - rewrite Hcols. intros Hin. by apply list_elem_of_filter in Hin as [? _].
  - intros r (i & -> & Hi)%list_elem_of_fmap.
    rewrite Forall_forall in Hpos. apply Hpos in Hi.
    apply lookup_lt_is_Some_2 in Hi as [r1 Hr1]. rewrite Hr1. cbn [default].
    destruct (Hrows r1) as (r0 & Hr0 & Hcells); [by eapply list_elem_of_lookup_2|].
    exists r0. split; [done|]. intros name Hname.
    rewrite <- (Hcells name Hname). unfold cell_of. cbn [columns]. done.
Qed.

Lemma synthetic_rows_are_data_rows_witness :
  let draw := fun (size n : nat) => replicate n 0%nat in
  let file := [ ["Export"]; ["Generated"];
                ["#"; "CPT_Code"; "Denial_Reason"];
                ["1"; "99213"; "Missing modifier"];
                ["2"; "99214"; ""] ] in
  exists out, generate_new_claims draw file = Ok out
    /\ length (rows out) = 3000%nat
    /\ columns out = ["CPT_Code"; "Denial_Reason"].
Proof.
  intros draw file.
  assert (Hdraw : valid_draw draw).
  { intros size n Hsize. unfold draw. split; [apply length_replicate|].
    apply Forall_forall. by intros i ->%elem_of_replicate_inv. }
  destruct (generate_new_claims draw file) as [out|e] eqn:Hrun;
    [|by vm_compute in Hrun].
  exists out. split; [done|].
  destruct (synthetic_rows_are_data_rows draw file out Hdraw Hrun)
    as (df & Hread & Hlen & Hcols & _).
  split; [exact Hlen|]. rewrite Hcols.
  assert (Hdf : Ok df = read_csv 0 (drop 2 file)) by done.
  vm_compute in Hdf. injection Hdf as ->. reflexivity.
Defined.

(** X20.  The script does not survive a data file without records: with nothing
    after the two leading lines the read raises, and with a header and no
    record under it the sampling raises [ValueError], whatever the
    generator. *)
Theorem generate_needs_records (draw : nat -> nat -> list nat) (file : list (list string)) :
  (filter (fun l => l <> []) (drop 2 file) = [] ->
     generate_new_claims draw file = Raise EmptyDataError)
  /\ (forall hdr, filter (fun l => l <> []) (drop 2 file) = [hdr] ->
        generate_new_claims draw file = Raise ValueError).
Proof.
  unfold generate_new_claims, read_csv. split.
  - intros ->. done.
  - intros hdr ->. rewrite drop_0. cbn [forallb bind].
    set (df0 := {| columns := header_names hdr; rows := _ |}).
    assert (Hrows : rows (if bool_decide ("#" ∈ columns df0)
                          then drop_columns "#" df0 else df0) = []).
    { by case_bool_decide. }
    unfold sample. by rewrite bool_decide_eq_true_2.
Qed.

Lemma generate_needs_records_witness :
  generate_new_claims (fun _ n => replicate n 0%nat) [ ["Claims export"]; ["Run 12"] ] = Raise EmptyDataError
  /\ generate_new_claims (fun _ n => replicate n 0%nat)
       [ ["Claims export"]; ["Run 12"]; []; ["#"; "CPT_Code"; "Denial_Reason"] ]
     = Raise ValueError.
Proof.
  split.
  - by apply (generate_needs_records (fun _ n => replicate n 0%nat) [ ["Claims export"]; ["Run 12"] ]).
  - by apply (generate_needs_records (fun _ n => replicate n 0%nat)
               [ ["Claims export"]; ["Run 12"]; []; ["#"; "CPT_Code"; "Denial_Reason"] ])
         with (hdr := ["#"; "CPT_Code"; "Denial_Reason"]).
Defined.


(** ** More on the root causes *)

Lemma count_by_lower (Q : string -> bool) (l : list string) :
  length (filter (fun s => Q (Text.lower s) = true) l)
  = length (filter (fun s => Q s = true) (Text.lower <$> l)).
Proof.
  induction l as [|x l IH]; [done|].
  rewrite fmap_cons, !filter_cons.
  destruct (decide (Q (Text.lower x) = true)); simpl; by rewrite IH.
Qed.

(** X17.  The root-cause counts ignore the case of letters: two lists of denial
    reasons that are equal once lowercased get the same counts. *)
Theorem root_causes_ignore_case (texts1 texts2 : list string)
    (Hcase : Text.lower <$> texts1 = Text.lower <$> texts2) :
  root_causes texts1 = root_causes texts2.
Proof.
  unfold root_causes. apply Forall_fmap_ext_1, Forall_forall. intros [name pat] _.
  cbn [fst snd]. f_equal. rewrite !str_contains_sum_mentions. unfold mentions.
  set (Q := fun l : string =>
              existsb (fun k => Text.contains (Text.lower k) l) (Text.split "|" pat)).
  change (length (filter (fun s => Q (Text.lower s) = true) texts1)
          = length (filter (fun s => Q (Text.lower s) = true) texts2)).
  by rewrite !count_by_lower, Hcase.
Qed.

Lemma root_causes_ignore_case_witness :
  root_causes ["NO PRIOR AUTHORIZATION ON FILE"]
  = root_causes ["no prior Authorization on file"].
Proof. apply root_causes_ignore_case. reflexivity. Defined.

(** X8.  A required column is among the normalized headers exactly when some
    raw header, once cleaned, is a key of the synonym table for it: no
    header is taken for a required column by accident. *)
Theorem required_column_found_iff (raws : list string) (name : string)
    (Hname : name ∈ required_cols) :
  name ∈ normalize_header_row raws
  <-> exists raw, raw ∈ raws /\ col_map !! clean_header raw = Some name.
Proof.
  rewrite normalize_header_row_names, list_elem_of_fmap. split.
  - intros (raw & Heq & Hraw). exists raw. split; [done|].
    destruct (normalize_name_required raw) as [Hreq Hnone].
    destruct (col_map !! clean_header raw) as [v|] eqn:Hv.
    + unfold normalize_name in Heq. rewrite Hv in Heq. by subst.
    + exfalso. rewrite <- Heq in Hreq. apply Hreq in Hname. by destruct Hname.
  - intros (raw & Hraw & Hv). exists raw. split; [|done].
    unfold normalize_name. by rewrite Hv.
Qed.

Lemma required_column_found_iff_witness :
  "CPT_Code" ∈ normalize_header_row ["Claim #"; "Procedure-Code"; "CPT"]
  /\ ~ "Balance" ∈ normalize_header_row ["Claim #"; "Procedure-Code"; "Bal."].
Proof.
  split.
  - apply required_column_found_iff; [compute_done|].
    exists "Procedure-Code". split; [compute_done|compute_done].
  - intros Hin. apply required_column_found_iff in Hin as (raw & Hraw & Hv);
      [|compute_done].
    revert Hv. apply list_elem_of_In in Hraw. simpl in Hraw.
    destruct Hraw as [<-|[<-|[<-|[]]]]; by vm_compute.
Defined.
